(** * Teacher assessment server: scoring, recommendations and live updates

    A shallow embedding of the analysis pipeline of [improved_server.py]:
    [AIAnalysisEngine] (teaching metrics, overall score, eligibility, final
    report), [RecommendationEngine] and the WebSocket [ConnectionManager].

    Python values are embedded with the semantics the interpreter gives them:
    [float] is IEEE 754 binary64 (the parameterised operations of [SpecFloat]
    at precision 53), [int] is [Z], dictionaries with string keys are finite
    maps, and an exception is an explicit error result. *)

From Stdlib Require Import ZArith QArith Ascii String List Lia.
From Stdlib Require Import Floats.SpecFloat.
From stdpp Require Import gmap strings list fin_maps pretty.

Local Open Scope string_scope.
Local Open Scope Z_scope.

(** ** Python values and exceptions *)

Module Py.

(** The exception classes the modelled code can raise. *)
Inductive exn : Type :=
| KeyError (key : string)
| TypeError
| ValueError (msg : string)
| AttributeError
| OverflowError
| ZeroDivisionError
| RuntimeError
| OperationalError.

(** A computation either returns or raises. *)
Inductive result (A : Type) : Type :=
| Ok (a : A)
| Raise (e : exn).
Arguments Ok {A} a.
Arguments Raise {A} e.

(** Sequencing stops at the first exception ([x ← c; k] is stdpp's
    notation for [mbind]). *)
#[global] Instance result_ret : MRet result := fun _ a => Ok a.

#[global] Instance result_bind : MBind result := fun _ _ k c =>
  match c with
  | Ok a => k a
  | Raise e => Raise e
  end.

(** *** binary64 *)

Definition float : Type := spec_float.

Definition prec : Z := 53.
Definition emax : Z := 1024.

Definition fadd : float -> float -> float := SFadd prec emax.
Definition fmul : float -> float -> float := SFmul prec emax.
Definition fdiv : float -> float -> float := SFdiv prec emax.
Definition fsub : float -> float -> float := SFsub prec emax.

(** The integer [z] as an unrounded significand with exponent 0. *)
Definition raw_of_Z (z : Z) : float :=
  match z with
  | Z0 => S754_zero false
  | Zpos p => S754_finite false p 0
  | Zneg p => S754_finite true p 0
  end.

(** [float(z)]: the nearest binary64, ties to even. *)
Definition float_of_Z (z : Z) : float := binary_normalize prec emax z 0 false.

(** A decimal literal of [d] fractional digits, [n / 10^d], denotes the
    nearest binary64: the correctly rounded quotient of the two integers. *)
Definition lit (n : Z) (d : nat) : float :=
  fdiv (raw_of_Z n) (raw_of_Z (10 ^ Z.of_nat d)).

Definition float_of_literal (n : Number.number) : option spec_float :=
  match n with
  | Number.Decimal (Decimal.Decimal i fraction) =>
      Some (lit (Z.of_int (Decimal.app_int i fraction))
                (Decimal.nb_digits fraction))
  | _ => None
  end.

Definition literal_of_float (x : spec_float) : option Number.number := None.

Declare Scope f64_scope.
Delimit Scope f64_scope with f64.
Bind Scope f64_scope with float spec_float.
Number Notation spec_float float_of_literal literal_of_float : f64_scope.
Infix "+" := fadd : f64_scope.
Infix "*" := fmul : f64_scope.

Definition is_finite (f : float) : bool :=
  match f with
  | S754_zero _ | S754_finite _ _ _ => true
  | _ => false
  end.

(** Round half to even of the rational [n / d], [d > 0]. *)
Definition round_half_even (n d : Z) : Z :=
  let q := n / d in
  let r := n mod d in
  match (2 * r) ?= d with
  | Lt => q
  | Gt => q + 1
  | Eq => if Z.even q then q else q + 1
  end.

(** [round(x, 1)] on a float: the exact value of [x] is rounded to one
    decimal digit (half to even) and the decimal is read back as the nearest
    binary64; zeros, infinities and NaN round to themselves. *)
Definition fround1 (x : float) : float :=
  match x with
  | S754_finite s m e =>
      if 0 <=? e then x
      else
        let k := round_half_even (10 * Zpos m) (2 ^ (- e)) in
        match k with
        | Zpos p => fdiv (S754_finite s p 0) 10.0
        | _ => S754_zero s
        end
  | _ => x
  end.

(** *** Exact values and comparison

    Python compares numbers by their exact values, also across [int] and
    [float]; NaN is unordered. *)

(** [m * 2^e] as a rational. *)
Definition dyadic (m e : Z) : Q :=
  if 0 <=? e then inject_Z (m * 2 ^ e) else Qmake m (Z.to_pos (2 ^ (- e))).

Inductive xreal : Type :=
| XNaN
| XInf (negative : bool)
| XFin (q : Q).

Definition float_value (f : float) : xreal :=
  match f with
  | S754_zero _ => XFin 0
  | S754_infinity s => XInf s
  | S754_nan => XNaN
  | S754_finite s m e => XFin (dyadic (cond_Zopp s (Zpos m)) e)
  end.

Definition xcompare (a b : xreal) : option comparison :=
  match a, b with
  | XNaN, _ | _, XNaN => None
  | XInf s, XInf t =>
      Some (if s then (if t then Eq else Lt) else (if t then Gt else Eq))
  | XInf s, XFin _ => Some (if s then Lt else Gt)
  | XFin _, XInf t => Some (if t then Gt else Lt)
  | XFin p, XFin q => Some (Qcompare p q)
  end.

(** *** Values *)

Inductive pyval : Type :=
| PInt (z : Z)
| PFloat (f : float)
| PStr (s : string).

Definition dict : Type := gmap string pyval.

(** The values held by the top-level dictionaries of the server: a nested
    dictionary of metrics or a plain value (the timestamp). *)
Inductive pyobj : Type :=
| ODict (d : gmap string pyval)
| OVal (v : pyval).

(** [float(z)] as the interpreter applies it to an [int] operand. *)
Definition to_float (z : Z) : result float :=
  let f := float_of_Z z in
  if is_finite f then Ok f else Raise OverflowError.

Definition num_value (v : pyval) : option xreal :=
  match v with
  | PInt z => Some (XFin (inject_Z z))
  | PFloat f => Some (float_value f)
  | PStr _ => None
  end.

Fixpoint str_repeat (s : string) (n : nat) : string :=
  match n with
  | O => ""
  | S n' => s ++ str_repeat s n'
  end.

(** [a + b] *)
Definition py_add (a b : pyval) : result pyval :=
  match a, b with
  | PInt x, PInt y => Ok (PInt (x + y))
  | PFloat x, PFloat y => Ok (PFloat (fadd x y))
  | PInt x, PFloat y => fx ← to_float x; Ok (PFloat (fadd fx y))
  | PFloat x, PInt y => fy ← to_float y; Ok (PFloat (fadd x fy))
  | PStr x, PStr y => Ok (PStr (x ++ y))
  | _, _ => Raise TypeError
  end.

(** [a * b] *)
Definition py_mul (a b : pyval) : result pyval :=
  match a, b with
  | PInt x, PInt y => Ok (PInt (x * y))
  | PFloat x, PFloat y => Ok (PFloat (fmul x y))
  | PInt x, PFloat y => fx ← to_float x; Ok (PFloat (fmul fx y))
  | PFloat x, PInt y => fy ← to_float y; Ok (PFloat (fmul x fy))
  | PStr x, PInt n | PInt n, PStr x => Ok (PStr (str_repeat x (Z.to_nat n)))
  | _, _ => Raise TypeError
  end.

Definition is_zero (f : float) : bool :=
  match f with
  | S754_zero _ => true
  | _ => false
  end.

Definition float_truediv (x y : float) : result float :=
  if is_zero y then Raise ZeroDivisionError else Ok (fdiv x y).

(** [a / b]: true division, correctly rounded also for two [int]s. *)
Definition py_truediv (a b : pyval) : result pyval :=
  match a, b with
  | PInt x, PInt y =>
      if y =? 0 then Raise ZeroDivisionError
      else
        let q := fdiv (raw_of_Z x) (raw_of_Z y) in
        if is_finite q then Ok (PFloat q) else Raise OverflowError
  | PFloat x, PFloat y => q ← float_truediv x y; Ok (PFloat q)
  | PInt x, PFloat y => fx ← to_float x; q ← float_truediv fx y; Ok (PFloat q)
  | PFloat x, PInt y => fy ← to_float y; q ← float_truediv x fy; Ok (PFloat q)
  | _, _ => Raise TypeError
  end.

(** Ordering of two values: numbers by exact value, strings
    lexicographically, anything else is a [TypeError]. *)
Definition py_compare (a b : pyval) : result (option comparison) :=
  match a, b with
  | PStr x, PStr y => Ok (Some (String.compare x y))
  | _, _ =>
      match num_value a, num_value b with
      | Some x, Some y => Ok (xcompare x y)
      | _, _ => Raise TypeError
      end
  end.

(** [a < b] *)
Definition py_lt (a b : pyval) : result bool :=
  c ← py_compare a b;
  Ok (match c with Some Lt => true | _ => false end).

(** [a >= b] *)
Definition py_ge (a b : pyval) : result bool :=
  c ← py_compare a b;
  Ok (match c with Some (Gt | Eq) => true | _ => false end).

(** [min(a, b)]: the first argument unless the second is smaller. *)
Definition py_min (a b : pyval) : result pyval :=
  smaller ← py_lt b a;
  Ok (if smaller : bool then b else a).

(** [round(v, 1)]: an [int] is returned unchanged. *)
Definition py_round1 (v : pyval) : result pyval :=
  match v with
  | PFloat f => Ok (PFloat (fround1 f))
  | PInt z => Ok (PInt z)
  | PStr _ => Raise TypeError
  end.

(** [d[k]] *)
Definition subscript {V : Type} (d : gmap string V) (k : string) : result V :=
  match d !! k with
  | Some v => Ok v
  | None => Raise (KeyError k)
  end.

(** [d.get(k, dflt)] *)
Definition get {V : Type} (d : gmap string V) (k : string) (dflt : V) : V :=
  default dflt (d !! k).

(** [o[k]] on a stored object: only a dictionary can be indexed by a
    string. *)
Definition obj_subscript (o : pyobj) (k : string) : result pyval :=
  match o with
  | ODict d => subscript d k
  | OVal _ => Raise TypeError
  end.

(** [o.get(k, dflt)] on a stored object: only a dictionary has [get]. *)
Definition obj_get (o : pyobj) (k : string) (dflt : pyval) : result pyval :=
  match o with
  | ODict d => Ok (get d k dflt)
  | OVal _ => Raise AttributeError
  end.

(** Operators on computations, evaluating the left operand first as the
    interpreter does. *)
Definition add_ (x y : result pyval) : result pyval :=
  a ← x; b ← y; py_add a b.

Definition mul_ (x : result pyval) (c : float) : result pyval :=
  a ← x; py_mul a (PFloat c).

End Py.

Import Py.

(** ** [RecommendationEngine] *)

Module RecommendationEngine.

(** One recommendation: a dictionary with the four fixed string keys. *)
Record recommendation : Type := {
  category : string;
  priority : string;
  title : string;
  description : string
}.

Definition improve_voice_confidence : recommendation := {|
  category := "voice";
  priority := "high";
  title := "Improve Voice Confidence";
  description :=
    "Practice speaking exercises and breathing techniques to build confidence."
|}.

Definition enhance_voice_projection : recommendation := {|
  category := "voice";
  priority := "high";
  title := "Enhance Voice Projection";
  description :=
    "Work on projecting your voice to ensure all students can hear clearly."
|}.

Definition increase_facial_expressiveness : recommendation := {|
  category := "engagement";
  priority := "medium";
  title := "Increase Facial Expressiveness";
  description :=
    "Use more facial expressions and gestures to engage students."
|}.

Definition increase_student_interaction : recommendation := {|
  category := "teaching";
  priority := "medium";
  title := "Increase Student Interaction";
  description := "Ask more questions and encourage student participation."
|}.

Definition use_more_examples : recommendation := {|
  category := "teaching";
  priority := "low";
  title := "Use More Examples";
  description := "Include more real-world examples to illustrate concepts."
|}.

(** [if d.get(key, 100) < bound: recommendations.append(r)] *)
Definition append_if_below (d : pyobj) (key : string) (bound : Z)
    (r : recommendation) (recommendations : list recommendation)
    : result (list recommendation) :=
  v ← obj_get d key (PInt 100);
  below ← py_lt v (PInt bound);
  Ok (if below : bool then (recommendations ++ [r])%list else recommendations).

Definition generate_recommendations (metrics : gmap string pyobj)
    : result (list recommendation) :=
  let recommendations := [] in
  let voice_metrics := get metrics "voice_metrics" (ODict ∅) in
  let facial_metrics := get metrics "facial_metrics" (ODict ∅) in
  let teaching_metrics := get metrics "teaching_metrics" (ODict ∅) in
  (* Voice recommendations *)
  recommendations ←
    append_if_below voice_metrics "confidence" 70
      improve_voice_confidence recommendations;
  recommendations ←
    append_if_below voice_metrics "audibility" 75
      enhance_voice_projection recommendations;
  (* Engagement recommendations *)
  recommendations ←
    append_if_below facial_metrics "engagement_level" 70
      increase_facial_expressiveness recommendations;
  (* Teaching recommendations *)
  recommendations ←
    append_if_below teaching_metrics "interaction_level" 80
      increase_student_interaction recommendations;
  recommendations ←
    append_if_below teaching_metrics "example_usage" 75
      use_more_examples recommendations;
  Ok recommendations.

End RecommendationEngine.

(** ** [DatabaseManager]: the [assessment_data] table *)

Module DatabaseManager.

(** The pydantic model [AssessmentData]. *)
Record AssessmentData : Type := {
  assessment_id : string;
  timestamp : string;
  voice_metrics : dict;
  facial_metrics : dict;
  teaching_metrics : dict
}.

(** The SQLite file as far as the report needs it: whether it can be opened,
    and the rows of [assessment_data] in insertion order (the JSON text of a
    column is kept as the dictionary it encodes). *)
Record t : Type := {
  available : bool;
  assessment_data : list AssessmentData
}.

Definition save_assessment_data (self : t) (data : AssessmentData) : result t :=
  if available self then
    Ok {| available := true;
          assessment_data := (assessment_data self ++ [data])%list |}
  else Raise OperationalError.

(** [SELECT * FROM assessment_data WHERE assessment_id = ?] and [fetchall]. *)
Definition select_assessment_data (self : t) (id : string)
    : result (list AssessmentData) :=
  if available self then
    Ok (List.filter (fun r => String.eqb (assessment_id r) id)
          (assessment_data self))
  else Raise OperationalError.

End DatabaseManager.

(** ** [AIAnalysisEngine] *)

Module AIAnalysisEngine.

Import RecommendationEngine.

(** The pydantic model [AssessmentResult]. *)
Record AssessmentResult : Type := {
  assessment_id : string;
  overall_score : pyval;
  eligibility : string;
  recommendations : list recommendation;
  detailed_analysis : gmap string pyobj
}.

Definition _calculate_teaching_metrics (voice_metrics facial_metrics : dict)
    : result dict :=
  (* Simulate teaching metrics based on voice and facial data *)
  total ← py_add (get voice_metrics "confidence" (PInt 50))
                 (get facial_metrics "engagement" (PInt 50));
  half ← py_truediv total (PInt 2);
  interaction_score ← py_min (PInt 100) half;
  shifted ← py_add (get voice_metrics "clarity" (PInt 50)) (PInt 20);
  example_usage ← py_min (PInt 100) shifted;
  raised ← py_add (get facial_metrics "engagement" (PInt 50)) (PInt 15);
  student_engagement ← py_min (PInt 100) raised;
  r1 ← py_round1 interaction_score;
  r2 ← py_round1 example_usage;
  r3 ← py_round1 student_engagement;
  Ok (<["interaction_level" := r1]>
      (<["example_usage" := r2]>
      (<["student_engagement" := r3]> (∅ : dict)))).

(** [now] stands for [datetime.now().isoformat()]. *)
Definition _get_fallback_metrics (now : string) : gmap string pyobj :=
  <["voice_metrics" := ODict
      (<["confidence" := PFloat 70.0]>
      (<["volume" := PFloat 65.0]>
      (<["clarity" := PFloat 75.0]>
      (<["audibility" := PFloat 80.0]> ∅))))]>
  (<["facial_metrics" := ODict
      (<["emotion" := PStr "neutral"]>
      (<["engagement_level" := PFloat 70.0]>
      (<["expression_variety" := PFloat 65.0]> ∅)))]>
  (<["teaching_metrics" := ODict
      (<["interaction_level" := PFloat 70.0]>
      (<["example_usage" := PFloat 75.0]>
      (<["student_engagement" := PFloat 70.0]> ∅)))]>
  (<["timestamp" := OVal (PStr now)]> ∅))).

Definition _aggregate_metrics (data_points : list DatabaseManager.AssessmentData)
    : gmap string pyobj :=
  (* Implementation would aggregate voice, facial, and teaching metrics *)
  <["voice_metrics" := ODict
      (<["confidence" := PFloat 75.0]>
      (<["volume" := PFloat 70.0]>
      (<["clarity" := PFloat 80.0]>
      (<["audibility" := PFloat 75.0]> ∅))))]>
  (<["facial_metrics" := ODict
      (<["emotion" := PStr "confident"]>
      (<["engagement_level" := PFloat 78.0]>
      (<["expression_variety" := PFloat 72.0]> ∅)))]>
  (<["teaching_metrics" := ODict
      (<["interaction_level" := PFloat 76.0]>
      (<["example_usage" := PFloat 82.0]>
      (<["student_engagement" := PFloat 74.0]> ∅)))]> ∅)).

(** [metrics[group][key]] *)
Definition item (metrics : gmap string pyobj) (group key : string)
    : result pyval :=
  o ← subscript metrics group;
  obj_subscript o key.

Definition _calculate_overall_score (metrics : gmap string pyobj)
    : result pyval :=
  voice_score ←
    add_ (add_ (mul_ (item metrics "voice_metrics" "confidence") 0.3)
               (mul_ (item metrics "voice_metrics" "audibility") 0.4))
         (mul_ (item metrics "voice_metrics" "clarity") 0.3);
  facial_score ←
    add_ (mul_ (item metrics "facial_metrics" "engagement_level") 0.6)
         (mul_ (item metrics "facial_metrics" "expression_variety") 0.4);
  teaching_score ←
    add_ (add_ (mul_ (item metrics "teaching_metrics" "interaction_level") 0.4)
               (mul_ (item metrics "teaching_metrics" "example_usage") 0.3))
         (mul_ (item metrics "teaching_metrics" "student_engagement") 0.3);
  blend ←
    add_ (add_ (mul_ (Ok voice_score) 0.4)
               (mul_ (Ok facial_score) 0.3))
         (mul_ (Ok teaching_score) 0.3);
  py_round1 blend.

Definition _determine_eligibility (score : pyval) : result string :=
  high ← py_ge score (PInt 85);
  if high : bool then Ok "eligible"
  else
    mid ← py_ge score (PInt 70);
    if mid : bool then Ok "needs-improvement"
    else Ok "not-eligible".

Definition continue_practice : recommendation := {|
  category := "general";
  priority := "medium";
  title := "Continue Practice";
  description := "Keep practicing teaching techniques"
|}.

Definition _get_fallback_result (assessment_id : string) : AssessmentResult := {|
  assessment_id := assessment_id;
  overall_score := PFloat 75.0;
  eligibility := "needs-improvement";
  recommendations := [continue_practice];
  detailed_analysis := ∅
|}.

(** The [try] block of [generate_final_report]. *)
Definition generate_final_report_try (db : DatabaseManager.t)
    (assessment_id : string) : result AssessmentResult :=
  (* Get all assessment data *)
  data_points ← DatabaseManager.select_assessment_data db assessment_id;
  match data_points with
  | [] => Raise (ValueError "No assessment data found")
  | _ :: _ =>
      (* Aggregate metrics *)
      let aggregated_metrics := _aggregate_metrics data_points in
      (* Calculate overall score *)
      overall_score ← _calculate_overall_score aggregated_metrics;
      (* Determine eligibility *)
      eligibility ← _determine_eligibility overall_score;
      (* Generate recommendations *)
      recommendations ← generate_recommendations aggregated_metrics;
      Ok {| assessment_id := assessment_id;
            overall_score := overall_score;
            eligibility := eligibility;
            recommendations := recommendations;
            detailed_analysis := aggregated_metrics |}
  end.

(** [except Exception]: any exception of the block yields the fallback. *)
Definition generate_final_report (db : DatabaseManager.t)
    (assessment_id : string) : AssessmentResult :=
  match generate_final_report_try db assessment_id with
  | Ok report => report
  | Raise _ => _get_fallback_result assessment_id
  end.

End AIAnalysisEngine.

(** ** [ConnectionManager] *)

Module ConnectionManager.

(** A WebSocket is known by its identity; what the server does to it is
    recorded as a trace of transport events. *)
Definition WebSocket : Type := nat.

Inductive event : Type :=
| Accepted (websocket : WebSocket)
| SentText (websocket : WebSocket) (message : string).

Record t : Type := {
  active_connections : list WebSocket;
  assessment_connections : gmap string WebSocket
}.

(** [__init__] *)
Definition init : t := {|
  active_connections := [];
  assessment_connections := ∅
|}.

(** Truth value of an optional [str] argument: [None] and the empty string
    are false. *)
Definition truthy (assessment_id : option string) : option string :=
  match assessment_id with
  | Some "" | None => None
  | Some id => Some id
  end.

(** [list.remove]: drops the first occurrence. *)
Fixpoint remove_first (x : WebSocket) (l : list WebSocket) : list WebSocket :=
  match l with
  | [] => []
  | y :: l' => if Nat.eqb x y then l' else y :: remove_first x l'
  end.

Section Transport.

(** Whether the peer of a socket is still there: [accept] and [send_text]
    raise on a socket that is gone. *)
Variable is_open : WebSocket -> bool.

Definition accept (websocket : WebSocket) : result (list event) :=
  if is_open websocket then Ok [Accepted websocket] else Raise RuntimeError.

Definition send_text (websocket : WebSocket) (message : string)
    : result (list event) :=
  if is_open websocket then Ok [SentText websocket message]
  else Raise RuntimeError.

Definition connect (self : t) (websocket : WebSocket)
    (assessment_id : option string) : result (t * list event) :=
  trace ← accept websocket;
  let connections := (active_connections self ++ [websocket])%list in
  Ok (match truthy assessment_id with
      | Some id =>
          {| active_connections := connections;
             assessment_connections :=
               <[id := websocket]> (assessment_connections self) |}
      | None =>
          {| active_connections := connections;
             assessment_connections := assessment_connections self |}
      end, trace).

Definition disconnect (self : t) (websocket : WebSocket)
    (assessment_id : option string) : t :=
  let connections :=
    if existsb (Nat.eqb websocket) (active_connections self)
    then remove_first websocket (active_connections self)
    else active_connections self in
  match truthy assessment_id with
  | Some id =>
      {| active_connections := connections;
         assessment_connections := delete id (assessment_connections self) |}
  | None =>
      {| active_connections := connections;
         assessment_connections := assessment_connections self |}
  end.

Definition send_personal_message (self : t) (message : string)
    (websocket : WebSocket) : result (t * list event) :=
  trace ← send_text websocket message;
  Ok (self, trace).

Definition send_to_assessment (self : t) (assessment_id : string)
    (message : string) : result (t * list event) :=
  match assessment_connections self !! assessment_id with
  | Some websocket =>
      trace ← send_text websocket message;
      Ok (self, trace)
  | None => Ok (self, [])
  end.

(** What the [/ws/{assessment_id}] endpoint does to the manager over time:
    a client connects under an id, and later disconnects under the same
    id. *)
Inductive request : Type :=
| Connect (websocket : WebSocket) (assessment_id : option string)
| Disconnect (websocket : WebSocket) (assessment_id : option string).

(** One request; a connect that raises leaves the manager as it was. *)
Definition handle (self : t) (r : request) : t :=
  match r with
  | Connect websocket assessment_id =>
      match connect self websocket assessment_id with
      | Ok (self', _) => self'
      | Raise _ => self
      end
  | Disconnect websocket assessment_id =>
      disconnect self websocket assessment_id
  end.

Definition serve (requests : list request) : t :=
  fold_left handle requests init.

End Transport.

End ConnectionManager.

(** ** Notions used by the specification *)

Module Spec.

Import RecommendationEngine ConnectionManager.

(** The number a metric value contributes to float arithmetic: itself, or
    [float(z)] for an [int] that fits. *)
Definition number (v : pyval) : option float :=
  match v with
  | PFloat x => Some x
  | PInt z =>
      match to_float z with
      | Ok x => Some x
      | Raise _ => None
      end
  | PStr _ => None
  end.

(** The numeric metric stored under [group] and [key] of a snapshot. *)
Definition metric (metrics : gmap string pyobj) (group key : string)
    : option float :=
  match metrics !! group with
  | Some (ODict d) => d !! key ≫= number
  | _ => None
  end.

(** The blend of the specification, in binary64 arithmetic. *)
Definition blend (confidence audibility clarity engagement_level
    expression_variety interaction_level example_usage student_engagement
    : float) : float :=
  ((confidence * 0.3 + audibility * 0.4 + clarity * 0.3) * 0.4
   + (engagement_level * 0.6 + expression_variety * 0.4) * 0.3
   + (interaction_level * 0.4 + example_usage * 0.3
      + student_engagement * 0.3) * 0.3)%f64.

(** Modelled from the spec: the aggregator's streaming mean, which
    [_aggregate_metrics] leaves unimplemented. Each value updates the mean by
    [mean' = mean + (value - mean) / count']. *)
Definition mean_step (state : float * Z) (value : float) : float * Z :=
  let '(mean, count) := state in
  let count' := Z.succ count in
  (fadd mean (fdiv (fsub value mean) (float_of_Z count')), count').

Definition running_mean (values : list float) : float :=
  fst (fold_left mean_step values (float_of_Z 0, 0)).

(** The eight entries the score reads, in the order it reads them. *)
Definition scored_keys : list (string * string) :=
  [ ("voice_metrics", "confidence");
    ("voice_metrics", "audibility");
    ("voice_metrics", "clarity");
    ("facial_metrics", "engagement_level");
    ("facial_metrics", "expression_variety");
    ("teaching_metrics", "interaction_level");
    ("teaching_metrics", "example_usage");
    ("teaching_metrics", "student_engagement") ].

(** A snapshot lacks an entry when the group or the key inside it is
    absent. *)
Definition lacks (metrics : gmap string pyobj) (group key : string) : Prop :=
  metrics !! group = None \/
  exists d, metrics !! group = Some (ODict d) /\ d !! key = None.

(** The rule table of the recommendation engine: group, key, threshold and
    the recommendation issued below the threshold. *)
Definition rule_table : list (string * string * Z * recommendation) :=
  [ ("voice_metrics", "confidence", 70, improve_voice_confidence);
    ("voice_metrics", "audibility", 75, enhance_voice_projection);
    ("facial_metrics", "engagement_level", 70, increase_facial_expressiveness);
    ("teaching_metrics", "interaction_level", 80, increase_student_interaction);
    ("teaching_metrics", "example_usage", 75, use_more_examples) ].

(** The value stored under a rule's key, if any. *)
Definition rule_input (metrics : gmap string pyobj) (group key : string)
    : option pyval :=
  match metrics !! group with
  | Some (ODict d) => d !! key
  | _ => None
  end.

(** A rule is triggered when its metric is present and its exact value is
    below the threshold. *)
Definition triggered (metrics : gmap string pyobj)
    (rule : string * string * Z * recommendation) : bool :=
  let '(group, key, bound, _) := rule in
  match rule_input metrics group key ≫= num_value with
  | Some x =>
      match xcompare x (XFin (inject_Z bound)) with
      | Some Lt => true
      | _ => false
      end
  | None => false
  end.

Definition triggered_recommendations (metrics : gmap string pyobj)
    : list recommendation :=
  List.map snd (List.filter (triggered metrics) rule_table).

(** A snapshot is well formed for the rules when each group is absent or a
    dictionary, and each rule's metric is absent or a number. *)
Definition rule_input_ok (metrics : gmap string pyobj)
    (rule : string * string * Z * recommendation) : bool :=
  let '(group, key, _, _) := rule in
  match metrics !! group with
  | None => true
  | Some (ODict d) =>
      match d !! key with
      | None | Some (PInt _) | Some (PFloat _) => true
      | Some (PStr _) => false
      end
  | Some (OVal _) => false
  end.

Definition rules_well_formed (metrics : gmap string pyobj) : bool :=
  forallb (rule_input_ok metrics) rule_table.

(** Modelled from the spec: the observers of a session. A connection is
    subscribed to [id] from the moment it connects under [id] until it
    disconnects; many connections may be subscribed to one session. *)
Definition subscribe_step (is_open : WebSocket -> bool) (id : string)
    (current : list WebSocket) (r : request) : list WebSocket :=
  match r with
  | Connect websocket assessment_id =>
      if is_open websocket && bool_decide (truthy assessment_id = Some id)
      then (current ++ [websocket])%list
      else current
  | Disconnect websocket assessment_id =>
      if bool_decide (truthy assessment_id = Some id)
      then remove_first websocket current
      else current
  end.

Definition subscribers (is_open : WebSocket -> bool) (requests : list request)
    (id : string) : list WebSocket :=
  fold_left (subscribe_step is_open id) requests [].

(** The one connection the manager keeps for [id]: the last that connected
    under [id], unless a disconnect under [id] came after it. *)
Definition register_step (is_open : WebSocket -> bool) (id : string)
    (current : option WebSocket) (r : request) : option WebSocket :=
  match r with
  | Connect websocket assessment_id =>
      if is_open websocket && bool_decide (truthy assessment_id = Some id)
      then Some websocket
      else current
  | Disconnect _ assessment_id =>
      if bool_decide (truthy assessment_id = Some id) then None else current
  end.

Definition registered (is_open : WebSocket -> bool) (requests : list request)
    (id : string) : option WebSocket :=
  fold_left (register_step is_open id) requests None.

End Spec.

(** ** Concrete inputs *)

Module Samples.

Import AIAnalysisEngine.

(** The sample of the end-to-end scenario of the specification. *)
Definition sample_voice : dict :=
  <["confidence" := PFloat 60.0]>
  (<["audibility" := PFloat 70.0]>
  (<["clarity" := PFloat 65.0]>
  (<["volume" := PFloat 60.0]> ∅))).

Definition sample_facial : dict :=
  <["engagement_level" := PFloat 60.0]>
  (<["expression_variety" := PFloat 60.0]>
  (<["emotion" := PStr "neutral"]> ∅)).

(** The same sample as a stored data point of assessment [S1]. *)
Definition sample_data : DatabaseManager.AssessmentData := {|
  DatabaseManager.assessment_id := "S1";
  DatabaseManager.timestamp := "2024-01-01T00:00:00";
  DatabaseManager.voice_metrics := sample_voice;
  DatabaseManager.facial_metrics := sample_facial;
  DatabaseManager.teaching_metrics := ∅
|}.

Definition empty_database : DatabaseManager.t := {|
  DatabaseManager.available := true;
  DatabaseManager.assessment_data := []
|}.

(** A snapshot whose voice map has no [confidence]. *)
Definition snapshot_without_confidence : gmap string pyobj :=
  <["voice_metrics" := ODict
      (<["volume" := PFloat 70.0]>
      (<["clarity" := PFloat 80.0]>
      (<["audibility" := PFloat 75.0]> ∅)))]>
  (_aggregate_metrics []).

(** The placeholder aggregate with a timestamp added and another emotion. *)
Definition stamped_snapshot : gmap string pyobj :=
  <["timestamp" := OVal (PStr "2024-01-01T00:00:00")]>
  (<["facial_metrics" := ODict
      (<["emotion" := PStr "happy"]>
      (<["engagement_level" := PFloat 78.0]>
      (<["expression_variety" := PFloat 72.0]> ∅)))]>
  (_aggregate_metrics [])).

(** A snapshot on which every rule fires. *)
Definition weak_snapshot : gmap string pyobj :=
  <["voice_metrics" := ODict sample_voice]>
  (<["facial_metrics" := ODict sample_facial]>
  (<["teaching_metrics" := ODict
      (<["interaction_level" := PFloat 55.0]>
      (<["example_usage" := PInt 60]> ∅))]> ∅)).

(** Two observers open a socket on the same assessment. *)
Definition two_observers : list ConnectionManager.request :=
  [ ConnectionManager.Connect 1%nat (Some "S1");
    ConnectionManager.Connect 2%nat (Some "S1") ].

Definition all_open (websocket : ConnectionManager.WebSocket) : bool := true.

End Samples.

(** ** Notions for the behaviour of the whole server *)

Module Behaviour.

Import AIAnalysisEngine RecommendationEngine ConnectionManager.

(** The session id a request acts on, if any. *)
Definition request_id (r : request) : option string :=
  match r with
  | Connect _ assessment_id | Disconnect _ assessment_id => truthy assessment_id
  end.

(** The requests [websocket_endpoint] issues: a socket opened on
    [/ws/{assessment_id}] connects under the id of its URL and, when the peer
    goes away, disconnects under that same id. *)
Definition from_endpoint (session_of : WebSocket -> string) (r : request)
    : bool :=
  match r with
  | Connect websocket assessment_id | Disconnect websocket assessment_id =>
      bool_decide (assessment_id = Some (session_of websocket))
  end.

(** The report built from the placeholder aggregate. *)
Definition placeholder_report (assessment_id : string) : AssessmentResult := {|
  AIAnalysisEngine.assessment_id := assessment_id;
  overall_score := PFloat 76.4;
  eligibility := "needs-improvement";
  recommendations := [increase_student_interaction];
  detailed_analysis := _aggregate_metrics []
|}.

(** Whether the table holds a data point of the assessment. *)
Definition has_data (db : DatabaseManager.t) (assessment_id : string) : bool :=
  existsb (fun r => String.eqb (DatabaseManager.assessment_id r) assessment_id)
    (DatabaseManager.assessment_data db).

(** The dictionary of the three derived metrics. *)
Definition teaching (interaction_level example_usage student_engagement : pyval)
    : dict :=
  <["interaction_level" := interaction_level]>
  (<["example_usage" := example_usage]>
  (<["student_engagement" := student_engagement]> ∅)).

(** The three eligibility tiers. *)
Definition tiers : list string :=
  ["eligible"; "needs-improvement"; "not-eligible"].

(** The group and key a rule of the table reads. *)
Definition rule_key (rule : string * string * Z * recommendation)
    : string * string :=
  let '(group, key, _, _) := rule in (group, key).

(** What a computation returns, transformed; an exception is kept. *)
#[global] Instance result_fmap : FMap result := fun _ _ g c =>
  match c with
  | Ok a => Ok (g a)
  | Raise e => Raise e
  end.

(** The invariant of the endpoint discipline: a registered socket is listed
    as active and was opened on the URL of the session it is registered
    for. *)
Definition registered_active (session_of : WebSocket -> string) (self : t)
    : Prop :=
  forall id websocket,
    assessment_connections self !! id = Some websocket ->
    In websocket (active_connections self) /\
    truthy (Some (session_of websocket)) = Some id.

End Behaviour.

(** ** Further concrete inputs *)

Module MoreSamples.

Import ConnectionManager.

(** Every socket of the examples is opened on [/ws/S1]. *)
Definition on_S1 (websocket : WebSocket) : string := "S1".

Definition observer_comes_and_goes : list request :=
  [ Connect 1%nat (Some "S1"); Connect 2%nat (Some "S1");
    Disconnect 1%nat (Some "S1") ].

End MoreSamples.

(** ** [SentimentAnalyzer] *)

Module SentimentAnalyzer.

Definition positive_words : list string :=
  ["good"; "great"; "excellent"; "wonderful"; "amazing"; "fantastic"].

Definition negative_words : list string :=
  ["bad"; "terrible"; "awful"; "horrible"; "disappointing"].

(** [str.lower] on a text of ASCII characters: the capital letters are
    shifted, every other character is kept. *)
Definition lower_ascii (c : ascii) : ascii :=
  let n := nat_of_ascii c in
  if Nat.leb 65 n && Nat.leb n 90 then ascii_of_nat (n + 32) else c.

Fixpoint lower (text : string) : string :=
  match text with
  | EmptyString => EmptyString
  | String c rest => String (lower_ascii c) (lower rest)
  end.

(** [word in text]: [word] occurs as a substring. *)
Fixpoint contains (word text : string) : bool :=
  String.prefix word text ||
  match text with
  | EmptyString => false
  | String _ rest => contains word rest
  end.

(** [sum(1 for word in words if word in text)] *)
Definition count (words : list string) (text : string) : Z :=
  Z.of_nat (length (List.filter (fun word => contains word text) words)).

Definition analyze (text : string) : result dict :=
  (* Simplified sentiment analysis *)
  let text_lower := lower text in
  let positive_count := count positive_words text_lower in
  let negative_count := count negative_words text_lower in
  let sentiment :=
    if negative_count <? positive_count then "positive"
    else if positive_count <? negative_count then "negative"
    else "neutral" in
  confidence ←
    py_truediv (PInt (Z.abs (positive_count - negative_count)))
               (PInt (Z.max 1 (positive_count + negative_count)));
  Ok (<["sentiment" := PStr sentiment]>
      (<["confidence" := confidence]> (∅ : dict))).

End SentimentAnalyzer.

(** ** The rest of [DatabaseManager]: assessments and recommendations *)

Module Store.

(** The pydantic model [AssessmentRequest]. *)
Record AssessmentRequest : Type := {
  teacher_name : string;
  teacher_email : string;
  institution : string;
  subject : string;
  duration : Z;
  criteria : gmap string bool
}.

(** A row of the table [assessments], column by column; [raw_data] holds
    the analysis whose JSON text the column stores. *)
Record assessment : Type := {
  id : string;
  a_teacher_name : string;
  a_teacher_email : string;
  a_institution : string;
  a_subject : string;
  a_duration : Z;
  status : string;
  created_at : string;
  started_at : option string;
  completed_at : option string;
  overall_score : pyval;
  eligibility : string;
  raw_data : option (gmap string pyobj)
}.

(** A row of the table [recommendations]. *)
Record recommendation_row : Type := {
  r_id : Z;
  r_assessment_id : string;
  r_category : string;
  r_priority : string;
  r_title : string;
  r_description : string
}.

(** The database file: the data points with the availability of the file,
    and the two other tables in insertion order. *)
Record t : Type := {
  data : DatabaseManager.t;
  assessments : list assessment;
  recommendations : list recommendation_row
}.

(** What [sqlite3] raises here: the file cannot be opened, or a key is
    already taken. *)
Inductive sqlite3_error : Type :=
| SqlOperationalError
| SqlIntegrityError.

Inductive outcome (A : Type) : Type :=
| Done (a : A)
| Failed (e : sqlite3_error).
Arguments Done {A} a.
Arguments Failed {A} e.

Definition available (self : t) : bool := DatabaseManager.available (data self).

(** The key an [AUTOINCREMENT] column gives the next row. *)
Definition next_id (rows : list recommendation_row) : Z :=
  1 + fold_right Z.max 0 (List.map r_id rows).

(** [now_seconds] stands for [int(time.time())], [name_hash] for
    [hash(assessment.teacher_name)] and [now] for [CURRENT_TIMESTAMP]. *)
Definition create_assessment (self : t) (now_seconds name_hash : Z)
    (now : string) (request : AssessmentRequest) : outcome (t * string) :=
  let assessment_id :=
    "assess_" ++ pretty now_seconds ++ "_" ++ pretty (name_hash mod 10000) in
  if negb (available self) then Failed SqlOperationalError
  else if existsb (fun a => String.eqb (id a) assessment_id) (assessments self)
  then Failed SqlIntegrityError
  else
    Done ({| data := data self;
             assessments :=
               (assessments self ++
                [ {| id := assessment_id;
                     a_teacher_name := teacher_name request;
                     a_teacher_email := teacher_email request;
                     a_institution := institution request;
                     a_subject := subject request;
                     a_duration := duration request;
                     status := "pending";
                     created_at := now;
                     started_at := None;
                     completed_at := None;
                     overall_score := PFloat 0.0;
                     eligibility := "not-eligible";
                     raw_data := None |} ])%list;
             recommendations := recommendations self |},
          assessment_id).

(** [SET status = ?, {timestamp_field} = CURRENT_TIMESTAMP] on one row. *)
Definition set_status (new_status now : string) (a : assessment) : assessment :=
  let in_progress := String.eqb new_status "in-progress" in
  {| id := id a;
     a_teacher_name := a_teacher_name a;
     a_teacher_email := a_teacher_email a;
     a_institution := a_institution a;
     a_subject := a_subject a;
     a_duration := a_duration a;
     status := new_status;
     created_at := created_at a;
     started_at := if in_progress then Some now else started_at a;
     completed_at := if in_progress then completed_at a else Some now;
     overall_score := overall_score a;
     eligibility := eligibility a;
     raw_data := raw_data a |}.

(** [UPDATE assessments ... WHERE id = ?]: every row with the id. *)
Definition update_where (assessment_id : string)
    (change : assessment -> assessment) (rows : list assessment)
    : list assessment :=
  List.map (fun a => if String.eqb (id a) assessment_id then change a else a)
    rows.

Definition update_assessment_status (self : t) (now : string)
    (assessment_id new_status : string) : outcome t :=
  if negb (available self) then Failed SqlOperationalError
  else
    Done {| data := data self;
            assessments :=
              update_where assessment_id (set_status new_status now)
                (assessments self);
            recommendations := recommendations self |}.

(** [SET overall_score = ?, eligibility = ?, raw_data = ?] on one row. *)
Definition set_result (result : AIAnalysisEngine.AssessmentResult)
    (a : assessment) : assessment :=
  {| id := id a;
     a_teacher_name := a_teacher_name a;
     a_teacher_email := a_teacher_email a;
     a_institution := a_institution a;
     a_subject := a_subject a;
     a_duration := a_duration a;
     status := status a;
     created_at := created_at a;
     started_at := started_at a;
     completed_at := completed_at a;
     overall_score := AIAnalysisEngine.overall_score result;
     eligibility := AIAnalysisEngine.eligibility result;
     raw_data := Some (AIAnalysisEngine.detailed_analysis result) |}.

(** One [INSERT INTO recommendations]. *)
Definition insert_recommendation (assessment_id : string)
    (rows : list recommendation_row)
    (rec : RecommendationEngine.recommendation) : list recommendation_row :=
  (rows ++
   [ {| r_id := next_id rows;
        r_assessment_id := assessment_id;
        r_category := RecommendationEngine.category rec;
        r_priority := RecommendationEngine.priority rec;
        r_title := RecommendationEngine.title rec;
        r_description := RecommendationEngine.description rec |} ])%list.

Definition save_assessment_result (self : t)
    (result : AIAnalysisEngine.AssessmentResult) : outcome t :=
  if negb (available self) then Failed SqlOperationalError
  else
    let assessment_id := AIAnalysisEngine.assessment_id result in
    Done {| data := data self;
            assessments :=
              update_where assessment_id (set_result result)
                (assessments self);
            (* Save recommendations *)
            recommendations :=
              fold_left (insert_recommendation assessment_id)
                (AIAnalysisEngine.recommendations result)
                (recommendations self) |}.

(** What a row of [SELECT * FROM assessments] holds at each index. *)
Inductive cell : Type :=
| CNone
| CVal (v : pyval)
| CJson (d : gmap string pyobj).

Definition optional_text (o : option string) : cell :=
  match o with
  | Some s => CVal (PStr s)
  | None => CNone
  end.

Definition columns (a : assessment) : list cell :=
  [ CVal (PStr (id a));
    CVal (PStr (a_teacher_name a));
    CVal (PStr (a_teacher_email a));
    CVal (PStr (a_institution a));
    CVal (PStr (a_subject a));
    CVal (PInt (a_duration a));
    CVal (PStr (status a));
    CVal (PStr (created_at a));
    optional_text (started_at a);
    optional_text (completed_at a);
    CVal (overall_score a);
    CVal (PStr (eligibility a));
    match raw_data a with
    | Some d => CJson d
    | None => CNone
    end ].

(** [SELECT * FROM assessments WHERE id = ?] and [fetchone]. *)
Definition select_assessment (self : t) (assessment_id : string)
    : outcome (option (list cell)) :=
  if negb (available self) then Failed SqlOperationalError
  else
    Done (columns <$>
          List.find (fun a => String.eqb (id a) assessment_id)
            (assessments self)).

End Store.

(** ** The API routes *)

Module Api.

Import ConnectionManager.

(** A route returns its JSON body or raises an [HTTPException]. *)
Inductive response (A : Type) : Type :=
| Success (body : A)
| HTTPException (status_code : Z) (detail : string).
Arguments Success {A} body.
Arguments HTTPException {A} status_code detail.

(** [POST /api/assessments/create] *)
Definition create_assessment (db : Store.t) (now_seconds name_hash : Z)
    (now : string) (assessment : Store.AssessmentRequest)
    : Store.t * response string :=
  match Store.create_assessment db now_seconds name_hash now assessment with
  | Store.Done (db', assessment_id) => (db', Success assessment_id)
  | Store.Failed _ => (db, HTTPException 500 "Failed to create assessment")
  end.

(** [POST /api/assessments/{assessment_id}/start] *)
Definition start_assessment (db : Store.t) (now : string)
    (assessment_id : string) : Store.t * response string :=
  match Store.update_assessment_status db now assessment_id "in-progress" with
  | Store.Done db' => (db', Success "Assessment started")
  | Store.Failed _ => (db, HTTPException 500 "Failed to start assessment")
  end.

(** [POST /api/assessments/{assessment_id}/data]; [analysis] is what
    [analyze_realtime_data] returned and [message] its JSON text. The row is
    committed before the update is sent. *)
Definition save_assessment_data (alive : WebSocket -> bool) (db : Store.t)
    (manager : ConnectionManager.t) (assessment_id : string)
    (data : DatabaseManager.AssessmentData) (analysis : gmap string pyobj)
    (message : string)
    : Store.t * response (gmap string pyobj) * list event :=
  let failed := HTTPException 500 "Failed to save assessment data" in
  match DatabaseManager.save_assessment_data (Store.data db) data with
  | Raise _ => (db, failed, [])
  | Ok stored =>
      let db' := {| Store.data := stored;
                    Store.assessments := Store.assessments db;
                    Store.recommendations := Store.recommendations db |} in
      (* Send real-time update via WebSocket *)
      match send_to_assessment alive manager assessment_id message with
      | Raise _ => (db', failed, [])
      | Ok (_, trace) => (db', Success analysis, trace)
      end
  end.

(** [POST /api/assessments/{assessment_id}/complete] *)
Definition complete_assessment (db : Store.t) (now : string)
    (assessment_id : string)
    : Store.t * response AIAnalysisEngine.AssessmentResult :=
  let failed := HTTPException 500 "Failed to complete assessment" in
  (* Generate final report *)
  let result :=
    AIAnalysisEngine.generate_final_report (Store.data db) assessment_id in
  (* Save result *)
  match Store.save_assessment_result db result with
  | Store.Failed _ => (db, failed)
  | Store.Done saved =>
      match Store.update_assessment_status saved now assessment_id "completed" with
      | Store.Failed _ => (saved, failed)
      | Store.Done db' => (db', Success result)
      end
  end.

(** The body of [GET /api/assessments/{assessment_id}], read off the row by
    index as the route does. *)
Definition assessment_body (row : list Store.cell) : gmap string Store.cell :=
  let at_ (i : nat) := nth i row Store.CNone in
  <["id" := at_ 0%nat]>
  (<["teacher_name" := at_ 1%nat]>
  (<["teacher_email" := at_ 2%nat]>
  (<["institution" := at_ 3%nat]>
  (<["subject" := at_ 4%nat]>
  (<["duration" := at_ 5%nat]>
  (<["status" := at_ 6%nat]>
  (<["overall_score" := at_ 9%nat]>
  (<["eligibility" := at_ 10%nat]> ∅)))))))).

(** [GET /api/assessments/{assessment_id}] *)
Definition get_assessment (db : Store.t) (assessment_id : string)
    : response (gmap string Store.cell) :=
  match Store.select_assessment db assessment_id with
  | Store.Failed _ => HTTPException 500 "Failed to get assessment"
  | Store.Done None => HTTPException 404 "Assessment not found"
  | Store.Done (Some row) => Success (assessment_body row)
  end.

End Api.

(** ** Notions for the further routes *)

Module Outcomes.

(** The analysis of a text returned this label and this confidence. *)
Definition verdict (text : string) (sentiment : string) (confidence : float)
    : Prop :=
  SentimentAnalyzer.analyze text =
  Ok (<["sentiment" := PStr sentiment]>
      (<["confidence" := PFloat confidence]> (∅ : dict))).

(** The table holds a row with this id. *)
Definition known (db : Store.t) (assessment_id : string) : bool :=
  existsb (fun a => String.eqb (Store.id a) assessment_id)
    (Store.assessments db).

End Outcomes.

(** ** Concrete inputs for the routes *)

Module RouteSamples.

Import Samples ConnectionManager.

(** An empty database file that can be opened. *)
Definition fresh_store : Store.t := {|
  Store.data := empty_database;
  Store.assessments := [];
  Store.recommendations := []
|}.

(** A database file that cannot be opened. *)
Definition broken_store : Store.t := {|
  Store.data := {| DatabaseManager.available := false;
                   DatabaseManager.assessment_data := [] |};
  Store.assessments := [];
  Store.recommendations := []
|}.

Definition ada : Store.AssessmentRequest := {|
  Store.teacher_name := "Ada";
  Store.teacher_email := "ada@example.org";
  Store.institution := "Analytical School";
  Store.subject := "Mathematics";
  Store.duration := 15;
  Store.criteria := ∅
|}.

(** The store after Ada's assessment was created at second 1700000000. *)
Definition store_with_ada : Store.t :=
  fst (Api.create_assessment fresh_store 1700000000 1234 "2023-11-14 22:13:20"
         ada).

(** The only socket registered for [S1] is gone. *)
Definition nobody_home (websocket : WebSocket) : bool := false.

End RouteSamples.

(** ** [VoiceAnalyzer], [FacialAnalyzer] and the live analysis *)

Module Analyzers.

Import AIAnalysisEngine.

Section Random.

(** The state of numpy's generator and its two operations as the analyzers
    use them: [np.random.random()] and [np.random.choice(emotions)]. Each
    returns a draw or raises (it raises when the name [np] is not bound,
    which is the case when the import of numpy failed). *)
Variable G : Type.
Variable np_random : G -> result float * G.
Variable np_choice : list string -> G -> result string * G.

(** A computation that draws from the generator. *)
Definition gen (A : Type) : Type := G -> result A * G.

Definition gen_bind {A B : Type} (c : gen A) (k : A -> gen B) : gen B :=
  fun g =>
    match c g with
    | (Ok a, g') => k a g'
    | (Raise e, g') => (Raise e, g')
    end.

Definition gen_ret {A : Type} (r : result A) : gen A := fun g => (r, g).

(** [round(base + np.random.random() * span, 1)] *)
Definition simulated (base span : Z) : gen pyval :=
  gen_bind np_random (fun u =>
  gen_ret (scaled ← py_mul (PFloat u) (PInt span);
           total ← py_add (PInt base) scaled;
           py_round1 total)).

Definition _simulate_voice_analysis : gen dict :=
  gen_bind (simulated 70 25) (fun confidence =>
  gen_bind (simulated 65 30) (fun volume =>
  gen_bind (simulated 75 20) (fun clarity =>
  gen_bind (simulated 80 15) (fun audibility =>
  gen_ret (Ok (<["confidence" := confidence]>
               (<["volume" := volume]>
               (<["clarity" := clarity]>
               (<["audibility" := audibility]> (∅ : dict)))))))))).

(** [try: return simulate() except Exception: return simulate()] *)
Definition retried {A : Type} (c : gen A) : gen A :=
  fun g =>
    match c g with
    | (Ok a, g') => (Ok a, g')
    | (Raise _, g') => c g'
    end.

Definition voice_analyze (AI_AVAILABLE : bool) (audio_data : dict) : gen dict :=
  if negb AI_AVAILABLE then _simulate_voice_analysis
  else retried _simulate_voice_analysis.

Definition emotions : list string :=
  ["neutral"; "happy"; "confident"; "engaged"; "serious"].

Definition _simulate_facial_analysis : gen dict :=
  gen_bind (np_choice emotions) (fun emotion =>
  gen_bind (simulated 70 25) (fun engagement_level =>
  gen_bind (simulated 65 30) (fun expression_variety =>
  gen_ret (Ok (<["emotion" := PStr emotion]>
               (<["engagement_level" := engagement_level]>
               (<["expression_variety" := expression_variety]>
                  (∅ : dict)))))))).

Definition facial_analyze (AI_AVAILABLE : bool) (video_frame : dict) : gen dict :=
  if negb AI_AVAILABLE then _simulate_facial_analysis
  else retried _simulate_facial_analysis.

(** The [try] block of [analyze_realtime_data]; [now] stands for
    [datetime.now().isoformat()]. *)
Definition analyze_realtime_data_try (AI_AVAILABLE : bool) (now : string)
    (data : gmap string dict) : gen (gmap string pyobj) :=
  (* Voice analysis *)
  gen_bind (voice_analyze AI_AVAILABLE (get data "audio_data" ∅))
    (fun voice_metrics =>
  (* Facial analysis *)
  gen_bind (facial_analyze AI_AVAILABLE (get data "video_frame" ∅))
    (fun facial_metrics =>
  (* Teaching metrics (simulated for now) *)
  gen_bind (gen_ret (_calculate_teaching_metrics voice_metrics facial_metrics))
    (fun teaching_metrics =>
  gen_ret (Ok (<["voice_metrics" := ODict voice_metrics]>
               (<["facial_metrics" := ODict facial_metrics]>
               (<["teaching_metrics" := ODict teaching_metrics]>
               (<["timestamp" := OVal (PStr now)]> ∅)))))))).

Definition analyze_realtime_data (AI_AVAILABLE : bool) (now : string)
    (data : gmap string dict) (g : G) : gmap string pyobj * G :=
  match analyze_realtime_data_try AI_AVAILABLE now data g with
  | (Ok analysis, g') => (analysis, g')
  | (Raise _, g') => (_get_fallback_metrics now, g')
  end.

End Random.

End Analyzers.

Module AnalyzerSamples.

(** A generator that counts its draws and always returns the middle. *)
Definition steady_random (n : nat) : result float * nat := (Ok 0.5%f64, S n).

Definition steady_choice (options : list string) (n : nat)
    : result string * nat :=
  (Ok (nth 0 options ""), S n).

(** A generator whose every draw raises. *)
Definition failing_random (n : nat) : result float * nat :=
  (Raise RuntimeError, n).

(** A voice reading whose confidence is a word. *)
Definition worded_voice : dict :=
  <["confidence" := PStr "high"]> (<["clarity" := PStr "good"]> ∅).

Definition praise : string := "A GREAT lesson with good examples".

End AnalyzerSamples.

(** ** The rule table as the specification lists it *)

Module Listed.

Import RecommendationEngine Spec.

(** What the specification says of a recommendation: its category, its
    priority and its title. *)
Definition headline (r : recommendation) : string * string * string :=
  (category r, priority r, title r).

(** The five rules in their listed order: the group and key of the metric
    read, the threshold, and the category, priority and title issued below
    the threshold. *)
Definition rules : list (string * string * Z * (string * string * string)) :=
  [ ("voice_metrics", "confidence", 70,
     ("voice", "high", "Improve Voice Confidence"));
    ("voice_metrics", "audibility", 75,
     ("voice", "high", "Enhance Voice Projection"));
    ("facial_metrics", "engagement_level", 70,
     ("engagement", "medium", "Increase Facial Expressiveness"));
    ("teaching_metrics", "interaction_level", 80,
     ("teaching", "medium", "Increase Student Interaction"));
    ("teaching_metrics", "example_usage", 75,
     ("teaching", "low", "Use More Examples")) ].

(** A listed rule fires when its metric is present and its exact value is
    below the threshold. *)
Definition fires (metrics : gmap string pyobj)
    (rule : string * string * Z * (string * string * string)) : bool :=
  let '(group, key, bound, _) := rule in
  match rule_input metrics group key ≫= num_value with
  | Some x =>
      match xcompare x (XFin (inject_Z bound)) with
      | Some Lt => true
      | _ => false
      end
  | None => false
  end.

(** The headlines of the rules that fire, in the listed order. *)
Definition recommendations (metrics : gmap string pyobj)
    : list (string * string * string) :=
  List.map snd (List.filter (fires metrics) rules).

(** Each group is absent or a dictionary, and each metric a rule reads is
    absent or a number. *)
Definition readable (metrics : gmap string pyobj)
    (rule : string * string * Z * (string * string * string)) : bool :=
  let '(group, key, _, _) := rule in
  match metrics !! group with
  | None => true
  | Some (ODict d) =>
      match d !! key with
      | None | Some (PInt _) | Some (PFloat _) => true
      | Some (PStr _) => false
      end
  | Some (OVal _) => false
  end.

Definition well_formed (metrics : gmap string pyobj) : bool :=
  forallb (readable metrics) rules.

(** A snapshot on which no rule fires. *)
Definition strong_snapshot : gmap string pyobj :=
  <["voice_metrics" := ODict
      (<["confidence" := PFloat 90.0]> (<["audibility" := PFloat 75.0]> ∅))]>
  (<["facial_metrics" := ODict (<["engagement_level" := PInt 70]> ∅)]>
  (<["teaching_metrics" := ODict (<["interaction_level" := PFloat 80.0]> ∅)]>
     ∅)).

End Listed.

(** ** The lookups of the overall score *)

Module Lookups.

Import Spec.

(** The name the first failing lookup of the score reports: the group when
    the group is absent, the key when the key is absent from its group. *)
Definition missing_name (metrics : gmap string pyobj) (group key : string)
    : option string :=
  match metrics !! group with
  | None => Some group
  | Some (ODict d) =>
      match d !! key with
      | None => Some key
      | Some _ => None
      end
  | Some (OVal _) => None
  end.

Fixpoint first_missing_in (metrics : gmap string pyobj)
    (keys : list (string * string)) : option string :=
  match keys with
  | [] => None
  | (group, key) :: rest =>
      match missing_name metrics group key with
      | Some name => Some name
      | None => first_missing_in metrics rest
      end
  end.

(** The first missing name in the order in which the score reads its
    entries. *)
Definition first_missing (metrics : gmap string pyobj) : option string :=
  first_missing_in metrics scored_keys.

End Lookups.

(** ** The table [assessment_data], column by column *)

Module AssessmentDataTable.

(** A row as [SELECT *] returns it; a metrics column holds the dictionary
    whose JSON text is stored. *)
Record row : Type := {
  id : Z;
  assessment_id : string;
  timestamp : string;
  voice_metrics : dict;
  facial_metrics : dict;
  teaching_metrics : dict
}.

Record t : Type := {
  available : bool;
  rows : list row
}.

(** The key an [AUTOINCREMENT] column gives the next row. *)
Definition next_id (rows : list row) : Z :=
  1 + fold_right Z.max 0 (List.map id rows).

(** [INSERT INTO assessment_data (assessment_id, voice_metrics,
    facial_metrics, teaching_metrics) VALUES (?, ?, ?, ?)]: the key and the
    timestamp are not among the columns written, so the row takes the next
    key and [now], which stands for [CURRENT_TIMESTAMP]; the timestamp of
    [data] is not read. *)
Definition save_assessment_data (self : t) (now : string)
    (data : DatabaseManager.AssessmentData) : result t :=
  if available self then
    Ok {| available := true;
          rows :=
            (rows self ++
             [ {| id := next_id (rows self);
                  assessment_id := DatabaseManager.assessment_id data;
                  timestamp := now;
                  voice_metrics := DatabaseManager.voice_metrics data;
                  facial_metrics := DatabaseManager.facial_metrics data;
                  teaching_metrics := DatabaseManager.teaching_metrics data
               |} ])%list |}
  else Raise OperationalError.

(** [SELECT * FROM assessment_data WHERE assessment_id = ?] and [fetchall]. *)
Definition select_assessment_data (self : t) (wanted : string)
    : result (list row) :=
  if available self then
    Ok (List.filter (fun r => String.eqb (assessment_id r) wanted) (rows self))
  else Raise OperationalError.

(** An empty table in a file that opens. *)
Definition empty : t := {| available := true; rows := [] |}.

End AssessmentDataTable.

(** * Properties *)

Import AIAnalysisEngine RecommendationEngine ConnectionManager Spec Samples.
Import Behaviour MoreSamples Outcomes RouteSamples AnalyzerSamples.

(** ** Exceptions propagate *)

Section ResultLaws.

Context {A B : Type}.

Lemma bind_Ok (a : A) (k : A -> result B) : (Ok a ≫= k) = k a.
Proof. reflexivity. Qed.

Lemma bind_Raise (e : exn) (k : A -> result B) : (Raise e ≫= k) = Raise e.
Proof. reflexivity. Qed.

Lemma bind_Ok_inv (c : result A) (k : A -> result B) (b : B) :
  (c ≫= k) = Ok b -> exists a, c = Ok a /\ k a = Ok b.
Proof.
  destruct c as [a|e]; cbn; intros H.
  - exists a. split; [reflexivity | exact H].
  - discriminate H.
Qed.

End ResultLaws.

Lemma add_Ok_inv (x y : result pyval) (v : pyval) :
  add_ x y = Ok v ->
  exists a b, x = Ok a /\ y = Ok b /\ py_add a b = Ok v.
Proof.
  unfold add_. intros H.
  apply bind_Ok_inv in H as (a & Hx & H).
  apply bind_Ok_inv in H as (b & Hy & H).
  exists a, b. auto.
Qed.

Lemma mul_Ok_inv (x : result pyval) (c : float) (v : pyval) :
  mul_ x c = Ok v -> exists a, x = Ok a /\ py_mul a (PFloat c) = Ok v.
Proof. unfold mul_. apply bind_Ok_inv. Qed.

(** ** Comparison against an integer bound *)

Lemma py_compare_bound (v : pyval) (q : Q) (bound : Z) :
  num_value v = Some (XFin q) ->
  py_compare v (PInt bound) = Ok (Some (q ?= inject_Z bound)%Q).
Proof.
  intros Hv. unfold py_compare.
  destruct v as [z|x|s]; cbn in Hv |- *; try discriminate Hv.
  - injection Hv as <-. reflexivity.
  - injection Hv as ->. reflexivity.
Qed.

Lemma py_ge_bound (v : pyval) (q : Q) (bound : Z) :
  num_value v = Some (XFin q) ->
  py_ge v (PInt bound) =
  Ok (match (q ?= inject_Z bound)%Q with Lt => false | _ => true end).
Proof.
  intros Hv. unfold py_ge. rewrite (py_compare_bound _ _ _ Hv). cbn.
  destruct (q ?= inject_Z bound)%Q; reflexivity.
Qed.

Lemma Qcompare_ge (p q : Q) :
  (q <= p)%Q -> match (p ?= q)%Q with Lt => false | _ => true end = true.
Proof.
  intros Hle. destruct (p ?= q)%Q eqn:Hc; try reflexivity.
  apply Qlt_alt in Hc. apply Qle_not_lt in Hle. contradiction.
Qed.

Lemma Qcompare_lt (p q : Q) :
  (p < q)%Q -> match (p ?= q)%Q with Lt => false | _ => true end = false.
Proof.
  intros Hlt. destruct (p ?= q)%Q eqn:Hc; try reflexivity.
  - apply Qeq_alt in Hc. rewrite Hc in Hlt. apply Qlt_irrefl in Hlt. contradiction.
  - apply Qgt_alt in Hc. apply Qlt_le_weak, Qle_not_lt in Hc. contradiction.
Qed.

(** ** Eligibility tiers *)

(** C3: a score whose exact value [q] is at least 85 is ['eligible'], one
    with [70 <= q < 85] is ['needs-improvement'], and one below 70 is
    ['not-eligible']; the lower bound of each tier is inclusive. *)
Theorem determine_eligibility_tiers (score : pyval) (q : Q) :
  num_value score = Some (XFin q) ->
  ((85 <= q)%Q -> _determine_eligibility score = Ok "eligible") /\
  ((70 <= q)%Q /\ (q < 85)%Q ->
   _determine_eligibility score = Ok "needs-improvement") /\
  ((q < 70)%Q -> _determine_eligibility score = Ok "not-eligible").
Proof.
  intros Hv. unfold _determine_eligibility.
  rewrite !(py_ge_bound _ _ _ Hv).
  repeat split.
  - intros H85. cbn. change (inject_Z 85) with (85 : Q).
    rewrite (Qcompare_ge _ _ H85). reflexivity.
  - intros [H70 H85]. cbn.
    change (inject_Z 85) with (85 : Q). change (inject_Z 70) with (70 : Q).
    rewrite (Qcompare_lt _ _ H85), (Qcompare_ge _ _ H70). reflexivity.
  - intros H70. cbn.
    change (inject_Z 85) with (85 : Q). change (inject_Z 70) with (70 : Q).
    assert (H85 : (q < 85)%Q) by (eapply Qlt_trans; [exact H70 | reflexivity]).
    rewrite (Qcompare_lt _ _ H85), (Qcompare_lt _ _ H70). reflexivity.
Qed.

(** The boundary scores of the specification: 85.0, 84.9 and 69.9. *)
Lemma determine_eligibility_boundaries :
  _determine_eligibility (PFloat 85.0) = Ok "eligible" /\
  _determine_eligibility (PFloat 84.9) = Ok "needs-improvement" /\
  _determine_eligibility (PFloat 70.0) = Ok "needs-improvement" /\
  _determine_eligibility (PFloat 69.9) = Ok "not-eligible".
Proof.
  pose proof (determine_eligibility_tiers (PFloat 85.0) _ eq_refl)
    as (H85 & _ & _).
  pose proof (determine_eligibility_tiers (PFloat 84.9) _ eq_refl)
    as (_ & H849 & _).
  pose proof (determine_eligibility_tiers (PFloat 70.0) _ eq_refl)
    as (_ & H70 & _).
  pose proof (determine_eligibility_tiers (PFloat 69.9) _ eq_refl)
    as (_ & _ & H699).
  split; [|split; [|split]].
  - apply H85. vm_compute. discriminate.
  - apply H849. split; vm_compute; [discriminate | reflexivity].
  - apply H70. split; vm_compute; [discriminate | reflexivity].
  - apply H699. vm_compute. reflexivity.
Defined.

(** ** The overall score *)

Lemma add_floats (a b : float) :
  add_ (Ok (PFloat a)) (Ok (PFloat b)) = Ok (PFloat (a + b)%f64).
Proof. reflexivity. Qed.

Lemma mul_float (a c : float) :
  mul_ (Ok (PFloat a)) c = Ok (PFloat (a * c)%f64).
Proof. reflexivity. Qed.

Lemma py_mul_number (v : pyval) (x c : float) :
  number v = Some x -> py_mul v (PFloat c) = Ok (PFloat (x * c)%f64).
Proof.
  destruct v as [z|y|s]; cbn; intros H; try discriminate H.
  - destruct (to_float z) as [y|e]; [|discriminate H].
    injection H as ->. reflexivity.
  - injection H as ->. reflexivity.
Qed.

Lemma item_metric (metrics : gmap string pyobj) (group key : string) (x : float) :
  metric metrics group key = Some x ->
  exists v, item metrics group key = Ok v /\ number v = Some x.
Proof.
  unfold metric, item, subscript. intros H.
  destruct (metrics !! group) as [[d|v]|]; try discriminate H.
  cbn. unfold subscript.
  destruct (d !! key) as [v|]; [|discriminate H].
  exists v. split; [reflexivity | exact H].
Qed.

Lemma mul_metric (metrics : gmap string pyobj) (group key : string) (x c : float) :
  metric metrics group key = Some x ->
  mul_ (item metrics group key) c = Ok (PFloat (x * c)%f64).
Proof.
  intros H. apply item_metric in H as (v & -> & Hv).
  unfold mul_. rewrite bind_Ok. exact (py_mul_number _ _ _ Hv).
Qed.

(** C1: when the voice, facial and teaching maps of a snapshot hold a
    number under each of the eight named keys, the overall score is the
    weighted blend of the specification rounded to one decimal place. *)
Theorem calculate_overall_score_blend (metrics : gmap string pyobj)
    (confidence audibility clarity engagement_level expression_variety
     interaction_level example_usage student_engagement : float) :
  metric metrics "voice_metrics" "confidence" = Some confidence ->
  metric metrics "voice_metrics" "audibility" = Some audibility ->
  metric metrics "voice_metrics" "clarity" = Some clarity ->
  metric metrics "facial_metrics" "engagement_level" = Some engagement_level ->
  metric metrics "facial_metrics" "expression_variety" = Some expression_variety ->
  metric metrics "teaching_metrics" "interaction_level" = Some interaction_level ->
  metric metrics "teaching_metrics" "example_usage" = Some example_usage ->
  metric metrics "teaching_metrics" "student_engagement" = Some student_engagement ->
  _calculate_overall_score metrics =
  Ok (PFloat (fround1 (blend confidence audibility clarity engagement_level
                         expression_variety interaction_level example_usage
                         student_engagement))).
Proof.
  intros Hc Ha Hcl Hel Hev Hil Heu Hse.
  unfold _calculate_overall_score.
  rewrite (mul_metric _ _ _ _ _ Hc), (mul_metric _ _ _ _ _ Ha),
    (mul_metric _ _ _ _ _ Hcl), (mul_metric _ _ _ _ _ Hel),
    (mul_metric _ _ _ _ _ Hev), (mul_metric _ _ _ _ _ Hil),
    (mul_metric _ _ _ _ _ Heu), (mul_metric _ _ _ _ _ Hse).
  rewrite !add_floats, !bind_Ok.
  rewrite !mul_float, !add_floats, bind_Ok.
  reflexivity.
Qed.

(** The placeholder aggregate scores 76.4. *)
Lemma calculate_overall_score_aggregate :
  _calculate_overall_score (_aggregate_metrics []) = Ok (PFloat 76.4).
Proof.
  rewrite (calculate_overall_score_blend (_aggregate_metrics [])
             75.0 75.0 80.0 78.0 72.0 76.0 82.0 74.0);
    [vm_compute; reflexivity | reflexivity ..].
Defined.

(** ** Determinism *)

(** C9: scoring is a function of the snapshot. Two snapshots that agree on
    the eight entries the score reads (identical snapshots in particular)
    get the identical overall score and the identical eligibility tier. *)
Theorem scoring_deterministic (m1 m2 : gmap string pyobj) :
  (forall group key,
     In (group, key) scored_keys -> item m1 group key = item m2 group key) ->
  _calculate_overall_score m1 = _calculate_overall_score m2 /\
  (_calculate_overall_score m1 ≫= _determine_eligibility) =
  (_calculate_overall_score m2 ≫= _determine_eligibility).
Proof.
  intros Hagree.
  assert (Hscore : _calculate_overall_score m1 = _calculate_overall_score m2).
  { unfold _calculate_overall_score.
    rewrite !Hagree by (cbn; tauto). reflexivity. }
  split; [exact Hscore | rewrite Hscore; reflexivity].
Qed.

Lemma scoring_deterministic_stamped :
  _calculate_overall_score (_aggregate_metrics []) =
  _calculate_overall_score stamped_snapshot /\
  (_calculate_overall_score (_aggregate_metrics []) ≫= _determine_eligibility) =
  (_calculate_overall_score stamped_snapshot ≫= _determine_eligibility).
Proof.
  apply (scoring_deterministic (_aggregate_metrics []) stamped_snapshot).
  intros group key Hin. cbn in Hin.
  repeat (destruct Hin as [[= <- <-] | Hin]; [vm_compute; reflexivity |]).
  contradiction.
Defined.

(** ** Missing metric keys *)

(** A returned score has read all eight entries. *)
Lemma calculate_overall_score_reads (metrics : gmap string pyobj) (v : pyval) :
  _calculate_overall_score metrics = Ok v ->
  forall group key, In (group, key) scored_keys ->
  exists x, item metrics group key = Ok x.
Proof.
  unfold _calculate_overall_score. intros H.
  apply bind_Ok_inv in H as (voice & Hvoice & H).
  apply bind_Ok_inv in H as (facial & Hfacial & H).
  apply bind_Ok_inv in H as (teaching & Hteaching & _).
  apply add_Ok_inv in Hvoice as (? & ? & Hvoice & Hcl & _).
  apply add_Ok_inv in Hvoice as (? & ? & Hc & Ha & _).
  apply add_Ok_inv in Hfacial as (? & ? & Hel & Hev & _).
  apply add_Ok_inv in Hteaching as (? & ? & Hteaching & Hse & _).
  apply add_Ok_inv in Hteaching as (? & ? & Hil & Heu & _).
  apply mul_Ok_inv in Hc as (? & Hc & _), Ha as (? & Ha & _),
    Hcl as (? & Hcl & _), Hel as (? & Hel & _), Hev as (? & Hev & _),
    Hil as (? & Hil & _), Heu as (? & Heu & _), Hse as (? & Hse & _).
  intros group key Hin. cbn in Hin.
  repeat (destruct Hin as [[= <- <-] | Hin]; [eauto |]).
  contradiction.
Qed.

Lemma item_lacks (metrics : gmap string pyobj) (group key : string) :
  lacks metrics group key ->
  item metrics group key = Raise (KeyError group) \/
  item metrics group key = Raise (KeyError key).
Proof.
  unfold item, subscript. intros [-> | (d & -> & Hd)]; cbn.
  - left. reflexivity.
  - right. unfold subscript. rewrite Hd. reflexivity.
Qed.

(** C6, as the code has it: a snapshot that lacks one of the eight named
    entries makes the score computation raise; no fallback default is
    substituted for the missing metric. *)
Theorem calculate_overall_score_missing_key (metrics : gmap string pyobj)
    (group key : string) :
  In (group, key) scored_keys ->
  lacks metrics group key ->
  exists e, _calculate_overall_score metrics = Raise e.
Proof.
  intros Hin Hlacks.
  destruct (_calculate_overall_score metrics) as [v|e] eqn:Hscore.
  - destruct (calculate_overall_score_reads _ _ Hscore _ _ Hin) as (x & Hx).
    destruct (item_lacks _ _ _ Hlacks) as [Hr | Hr];
      rewrite Hr in Hx; discriminate Hx.
  - exists e. reflexivity.
Qed.

Lemma lacks_confidence :
  lacks snapshot_without_confidence "voice_metrics" "confidence".
Proof. right. eexists. split; reflexivity. Qed.

Lemma calculate_overall_score_missing_key_confidence :
  exists e, _calculate_overall_score snapshot_without_confidence = Raise e.
Proof.
  apply (calculate_overall_score_missing_key snapshot_without_confidence
           "voice_metrics" "confidence").
  - cbn. tauto.
  - exact lacks_confidence.
Defined.

(** C6, as stated, fails: without [confidence] the score is not computed
    from the fallback value 70 but raises [KeyError]. *)
Lemma calculate_overall_score_raises_KeyError :
  lacks snapshot_without_confidence "voice_metrics" "confidence" /\
  _calculate_overall_score snapshot_without_confidence =
    Raise (KeyError "confidence") /\
  ~ (exists v, _calculate_overall_score snapshot_without_confidence = Ok v).
Proof.
  split; [exact lacks_confidence |].
  assert (H : _calculate_overall_score snapshot_without_confidence =
              Raise (KeyError "confidence")) by (vm_compute; reflexivity).
  split; [exact H |].
  intros (v & Hv). rewrite H in Hv. discriminate Hv.
Qed.

Lemma missing_name_lacks (metrics : gmap string pyobj) (group key : string) :
  lacks metrics group key ->
  exists name,
    Lookups.missing_name metrics group key = Some name /\
    item metrics group key = Raise (KeyError name).
Proof.
  unfold Lookups.missing_name, item, subscript.
  intros [Hg | (d & Hg & Hk)]; rewrite Hg; cbn.
  - exists group. split; reflexivity.
  - exists key. unfold subscript. rewrite Hk. split; reflexivity.
Qed.

Lemma missing_name_metric (metrics : gmap string pyobj) (group key : string)
    (x : float) :
  metric metrics group key = Some x ->
  Lookups.missing_name metrics group key = None.
Proof.
  unfold metric, Lookups.missing_name.
  destruct (metrics !! group) as [[d | v] |]; try discriminate.
  destruct (d !! key); [reflexivity | discriminate].
Qed.

(** One step through the entries in reading order, keeping track of the
    first missing name. *)
Ltac next_entry_named Hentries Hfirst :=
  match goal with
  | |- context [item ?m ?g ?k] =>
      let Hl := fresh "Hl" in
      let x := fresh "x" in
      let n := fresh "n" in
      let Hn := fresh "Hn" in
      let Hi := fresh "Hi" in
      destruct (Hentries g k ltac:(cbn; tauto)) as [Hl | (x & Hl)];
      [ destruct (missing_name_lacks _ _ _ Hl) as (n & Hn & Hi);
        rewrite Hn in Hfirst; injection Hfirst as <-;
        rewrite Hi; reflexivity
      | rewrite (missing_name_metric _ _ _ _ Hl) in Hfirst;
        rewrite (mul_metric _ _ _ _ _ Hl) ]
  end.

(** X25: when every entry is a number or absent, the score stops at the
    first lookup that fails, in the order in which the entries are read
    (voice: confidence, audibility, clarity; facial: engagement level,
    expression variety; teaching: interaction level, example usage, student
    engagement), and raises the [KeyError] that names it: the group when the
    group is absent, the key otherwise. *)
Lemma calculate_overall_score_KeyError (metrics : gmap string pyobj)
    (name : string) :
  (forall group key, In (group, key) scored_keys ->
     lacks metrics group key \/ exists x, metric metrics group key = Some x) ->
  Lookups.first_missing metrics = Some name ->
  _calculate_overall_score metrics = Raise (KeyError name).
Proof.
  intros Hentries Hfirst.
  unfold Lookups.first_missing, scored_keys in Hfirst.
  cbn [Lookups.first_missing_in] in Hfirst.
  unfold _calculate_overall_score.
  do 8 next_entry_named Hentries Hfirst.
  discriminate Hfirst.
Qed.

(** ** The final report *)

Lemma generate_final_report_try_no_data (db : DatabaseManager.t) (id : string) :
  DatabaseManager.select_assessment_data db id = Ok [] ->
  generate_final_report_try db id = Raise (ValueError "No assessment data found").
Proof. unfold generate_final_report_try. intros ->. reflexivity. Qed.

Lemma generate_final_report_try_unavailable (db : DatabaseManager.t) (id : string) :
  DatabaseManager.available db = false ->
  generate_final_report_try db id = Raise OperationalError.
Proof.
  unfold generate_final_report_try, DatabaseManager.select_assessment_data.
  intros ->. reflexivity.
Qed.

(** C10: an exception inside the report generation does not escape; the
    report is then the fixed fallback: score 75.0, ['needs-improvement'], the
    single recommendation 'Continue Practice' and an empty analysis. *)
Theorem generate_final_report_fallback (db : DatabaseManager.t) (id : string)
    (e : exn) :
  generate_final_report_try db id = Raise e ->
  generate_final_report db id = _get_fallback_result id /\
  overall_score (generate_final_report db id) = PFloat 75.0 /\
  eligibility (generate_final_report db id) = "needs-improvement" /\
  (exists r, recommendations (generate_final_report db id) = [r] /\
             category r = "general" /\ title r = "Continue Practice") /\
  detailed_analysis (generate_final_report db id) = ∅.
Proof.
  intros Htry. unfold generate_final_report. rewrite Htry. cbn.
  repeat split. exists continue_practice. repeat split.
Qed.

Lemma generate_final_report_fallback_no_data :
  generate_final_report empty_database "S1" = _get_fallback_result "S1" /\
  overall_score (generate_final_report empty_database "S1") = PFloat 75.0 /\
  eligibility (generate_final_report empty_database "S1") = "needs-improvement" /\
  (exists r, recommendations (generate_final_report empty_database "S1") = [r] /\
             category r = "general" /\ title r = "Continue Practice") /\
  detailed_analysis (generate_final_report empty_database "S1") = ∅.
Proof.
  apply (generate_final_report_fallback empty_database "S1"
           (ValueError "No assessment data found")).
  apply generate_final_report_try_no_data. reflexivity.
Defined.

(** ** Aggregation *)

Lemma aggregate_metrics_constant (data_points : list DatabaseManager.AssessmentData) :
  _aggregate_metrics data_points = _aggregate_metrics [].
Proof. reflexivity. Qed.

(** C2 fails on the code: after the single sample with confidence 60 is
    stored, its running mean is 60.0, but the snapshot that the report scores
    and returns carries the placeholder confidence 75.0, whatever was
    stored. *)
Theorem aggregate_metrics_ignores_samples :
  (forall data_points, _aggregate_metrics data_points = _aggregate_metrics []) /\
  exists db,
    DatabaseManager.save_assessment_data empty_database sample_data = Ok db /\
    sample_voice !! "confidence" = Some (PFloat 60.0) /\
    running_mean [60.0%f64] = 60.0%f64 /\
    metric (detailed_analysis (generate_final_report db "S1"))
      "voice_metrics" "confidence" = Some 75.0%f64 /\
    xcompare (float_value 75.0) (float_value (running_mean [60.0%f64])) = Some Gt /\
    overall_score (generate_final_report db "S1") = PFloat 76.4.
Proof.
  split; [exact aggregate_metrics_constant |].
  eexists. split; [reflexivity |].
  repeat split; vm_compute; reflexivity.
Qed.

(** ** Teaching metrics *)

Lemma calculate_teaching_metrics_ignores_engagement_level
    (voice_metrics facial_metrics : dict) (v : pyval) :
  _calculate_teaching_metrics voice_metrics
    (<["engagement_level" := v]> facial_metrics) =
  _calculate_teaching_metrics voice_metrics facial_metrics.
Proof.
  unfold _calculate_teaching_metrics, get, dict in *.
  rewrite !lookup_insert_ne by discriminate. reflexivity.
Qed.

(** C4 fails on the code: for the sample with confidence 60, clarity 65 and
    engagement_level 60 the derived metrics are 55.0, 85.0 and 65, because the
    facial map is read under the key [engagement], which it does not have. *)
Theorem calculate_teaching_metrics_sample :
  (forall (voice_metrics facial_metrics : dict) (v : pyval),
     _calculate_teaching_metrics voice_metrics
       (<["engagement_level" := v]> facial_metrics) =
     _calculate_teaching_metrics voice_metrics facial_metrics) /\
  exists d,
    _calculate_teaching_metrics sample_voice sample_facial = Ok d /\
    d !! "interaction_level" = Some (PFloat 55.0) /\
    d !! "example_usage" = Some (PFloat 85.0) /\
    d !! "student_engagement" = Some (PInt 65).
Proof.
  split; [exact calculate_teaching_metrics_ignores_engagement_level |].
  eexists. split; [vm_compute; reflexivity |].
  repeat split; vm_compute; reflexivity.
Qed.

(** ** Recommendations *)

Lemma Qcompare_inject_Z (a b : Z) : (inject_Z a ?= inject_Z b)%Q = (a ?= b)%Z.
Proof. unfold Qcompare. cbn. rewrite !Z.mul_1_r. reflexivity. Qed.

(** The default 100 of an absent metric is below no threshold of the
    table. *)
Lemma default_not_below (bound : Z) :
  (bound <= 100)%Z -> py_lt (PInt 100) (PInt bound) = Ok false.
Proof.
  intros Hle. unfold py_lt. cbn. rewrite Qcompare_inject_Z.
  destruct (Z.compare_spec 100 bound) as [Heq | Hlt | Hgt];
    [reflexivity | lia | reflexivity].
Qed.

Lemma py_lt_number (v : pyval) (x : xreal) (bound : Z) :
  num_value v = Some x ->
  py_lt v (PInt bound) =
  Ok (match xcompare x (XFin (inject_Z bound)) with
      | Some Lt => true
      | _ => false
      end).
Proof.
  intros Hv. unfold py_lt, py_compare.
  destruct v as [z|y|s]; cbn in Hv |- *; try discriminate Hv;
    injection Hv as <-; reflexivity.
Qed.

Lemma get_lookup {V : Type} (d : gmap string V) (k : string) (dflt : V) :
  get d k dflt = match d !! k with Some v => v | None => dflt end.
Proof. unfold get. destruct (d !! k); reflexivity. Qed.

Lemma append_if_below_rule (metrics : gmap string pyobj) (group key : string)
    (bound : Z) (r : recommendation) (acc : list recommendation) :
  (bound <= 100)%Z ->
  rule_input_ok metrics (group, key, bound, r) = true ->
  append_if_below (get metrics group (ODict ∅)) key bound r acc =
  Ok (if triggered metrics (group, key, bound, r)
      then (acc ++ [r])%list else acc).
Proof.
  intros Hbound Hok.
  unfold append_if_below, triggered, rule_input, rule_input_ok in *.
  rewrite get_lookup.
  destruct (metrics !! group) as [[d|v]|]; cbn [obj_get] in *.
  - rewrite get_lookup.
    destruct (d !! key) as [v|] eqn:Hkey; cbn [mbind option_bind].
    + destruct v as [z|x|s]; [| |discriminate Hok].
      * rewrite bind_Ok, (py_lt_number (PInt z) _ bound eq_refl). reflexivity.
      * rewrite bind_Ok, (py_lt_number (PFloat x) _ bound eq_refl). reflexivity.
    + rewrite bind_Ok, (default_not_below _ Hbound). reflexivity.
  - discriminate Hok.
  - rewrite get_lookup, lookup_empty.
    rewrite bind_Ok, (default_not_below _ Hbound). reflexivity.
Qed.

Lemma generate_recommendations_triggered (metrics : gmap string pyobj) :
  rules_well_formed metrics = true ->
  generate_recommendations metrics = Ok (triggered_recommendations metrics).
Proof.
  intros Hwf.
  unfold rules_well_formed, rule_table in Hwf. cbn [forallb] in Hwf.
  repeat (apply andb_prop in Hwf as [? Hwf]).
  unfold generate_recommendations.
  repeat (rewrite append_if_below_rule by (assumption || lia);
          rewrite bind_Ok).
  unfold triggered_recommendations, rule_table. cbn [List.filter].
  repeat match goal with
         | |- context [triggered metrics ?r] => destruct (triggered metrics r)
         end; reflexivity.
Qed.

Lemma headlines_triggered (metrics : gmap string pyobj)
    (table : list (string * string * Z * recommendation)) :
  List.map Listed.headline (List.map snd (List.filter (triggered metrics) table)) =
  List.map snd
    (List.filter (Listed.fires metrics)
       (List.map (fun '(group, key, bound, r) =>
                    (group, key, bound, Listed.headline r)) table)).
Proof.
  induction table as [|[[[group key] bound] r] table IH]; [reflexivity |].
  cbn [List.map List.filter].
  change (Listed.fires metrics (group, key, bound, Listed.headline r))
    with (triggered metrics (group, key, bound, r)).
  destruct (triggered metrics (group, key, bound, r)); cbn [List.map snd];
    rewrite IH; reflexivity.
Qed.

Lemma filter_none {A : Type} (f : A -> bool) (l : list A) :
  (forall x, In x l -> f x = false) -> List.filter f l = [].
Proof.
  induction l as [|x l IH]; intros Hl; [reflexivity |].
  cbn [List.filter]. rewrite (Hl x (or_introl eq_refl)).
  apply IH. intros y Hy. apply Hl. right. exact Hy.
Qed.

(** C5: on a snapshot whose rule metrics are numbers (or absent, which
    triggers nothing) the engine returns one recommendation for each rule
    that fires, all of them, in the listed order, each with the category,
    priority and title the rule table gives: voice/high 'Improve Voice
    Confidence' below 70 in confidence, voice/high 'Enhance Voice Projection'
    below 75 in audibility, engagement/medium 'Increase Facial
    Expressiveness' below 70 in engagement level, teaching/medium 'Increase
    Student Interaction' below 80 in interaction level and teaching/low 'Use
    More Examples' below 75 in example usage. When no rule fires the result
    is the empty list. *)
Theorem generate_recommendations_rule_table (metrics : gmap string pyobj) :
  Listed.well_formed metrics = true ->
  exists recommendations,
    generate_recommendations metrics = Ok recommendations /\
    List.map Listed.headline recommendations = Listed.recommendations metrics /\
    ((forall rule, In rule Listed.rules -> Listed.fires metrics rule = false) ->
     recommendations = []).
Proof.
  intros Hwf.
  exists (triggered_recommendations metrics).
  split; [exact (generate_recommendations_triggered metrics Hwf) |].
  assert (Hheadlines :
            List.map Listed.headline (triggered_recommendations metrics) =
            Listed.recommendations metrics)
    by exact (headlines_triggered metrics rule_table).
  split; [exact Hheadlines |].
  intros Hnone.
  unfold Listed.recommendations in Hheadlines.
  rewrite (filter_none _ _ Hnone) in Hheadlines.
  destruct (triggered_recommendations metrics); [reflexivity |].
  discriminate Hheadlines.
Qed.

Lemma generate_recommendations_weak_snapshot :
  exists recommendations,
    generate_recommendations weak_snapshot = Ok recommendations /\
    List.map Listed.headline recommendations =
      [ ("voice", "high", "Improve Voice Confidence");
        ("voice", "high", "Enhance Voice Projection");
        ("engagement", "medium", "Increase Facial Expressiveness");
        ("teaching", "medium", "Increase Student Interaction");
        ("teaching", "low", "Use More Examples") ] /\
    ((forall rule, In rule Listed.rules ->
        Listed.fires weak_snapshot rule = false) ->
     recommendations = []).
Proof.
  exact (generate_recommendations_rule_table weak_snapshot eq_refl).
Defined.

(** On a snapshot that sits on every threshold, or lacks the metric, no rule
    fires and the result is empty. *)
Lemma generate_recommendations_strong_snapshot :
  Listed.recommendations Listed.strong_snapshot = [] /\
  generate_recommendations Listed.strong_snapshot = Ok [].
Proof. split; vm_compute; reflexivity. Qed.

(** ** Live updates *)

Lemma handle_registered (is_open : WebSocket -> bool) (self : t) (r : request)
    (id : string) :
  assessment_connections (handle is_open self r) !! id =
  register_step is_open id (assessment_connections self !! id) r.
Proof.
  destruct r as [websocket assessment_id | websocket assessment_id];
    unfold handle, register_step, connect, disconnect, accept.
  - destruct (is_open websocket); cbn [andb mbind result_bind];
      [|reflexivity].
    destruct (truthy assessment_id) as [id'|]; cbn [assessment_connections].
    + case_bool_decide as Hid.
      * injection Hid as ->. apply lookup_insert_eq.
      * apply lookup_insert_ne. congruence.
    + rewrite bool_decide_eq_false_2 by discriminate. reflexivity.
  - destruct (truthy assessment_id) as [id'|]; cbn [assessment_connections].
    + case_bool_decide as Hid.
      * injection Hid as ->. apply lookup_delete_eq.
      * apply lookup_delete_ne. congruence.
    + rewrite bool_decide_eq_false_2 by discriminate. reflexivity.
Qed.

Lemma fold_handle_registered (is_open : WebSocket -> bool)
    (requests : list request) (self : t) (id : string) :
  assessment_connections (fold_left (handle is_open) requests self) !! id =
  fold_left (register_step is_open id) requests
    (assessment_connections self !! id).
Proof.
  revert self. induction requests as [|r requests IH]; intros self.
  - reflexivity.
  - cbn [fold_left]. rewrite IH, handle_registered. reflexivity.
Qed.

Lemma serve_registered (is_open : WebSocket -> bool) (requests : list request)
    (id : string) :
  assessment_connections (serve is_open requests) !! id =
  registered is_open requests id.
Proof. unfold serve, registered. apply fold_handle_registered. Qed.

(** C7, as the code has it: after any history of connects and disconnects,
    a message for a session goes to exactly one connection, the one
    registered for the session id (the last to connect under it), and to
    nobody when none is registered. *)
Theorem send_to_assessment_registered (accepting alive : WebSocket -> bool)
    (requests : list request) (id message : string) :
  send_to_assessment alive (serve accepting requests) id message =
  match registered accepting requests id with
  | Some websocket =>
      if alive websocket
      then Ok (serve accepting requests, [SentText websocket message])
      else Raise RuntimeError
  | None => Ok (serve accepting requests, [])
  end.
Proof.
  unfold send_to_assessment. rewrite serve_registered.
  destruct (registered accepting requests id) as [websocket|];
    [|reflexivity].
  unfold send_text. destruct (alive websocket); reflexivity.
Qed.

(** C7, as stated, fails: with two observers subscribed to [S1], the first
    one receives nothing of a published update. *)
Lemma send_to_assessment_misses_observer :
  In 1%nat (subscribers all_open two_observers "S1") /\
  In 2%nat (subscribers all_open two_observers "S1") /\
  send_to_assessment all_open (serve all_open two_observers) "S1" "update" =
    Ok (serve all_open two_observers, [SentText 2%nat "update"]) /\
  ~ In (SentText 1%nat "update") [SentText 2%nat "update"].
Proof.
  split; [vm_compute; tauto |].
  split; [vm_compute; tauto |].
  split; [vm_compute; reflexivity |].
  intros [H | []]. discriminate H.
Qed.

(** C8: publishing to a session id with no registered connection delivers
    nothing, raises nothing and leaves the manager as it was. *)
Theorem send_to_assessment_no_subscriber (alive : WebSocket -> bool)
    (self : t) (id message : string) :
  assessment_connections self !! id = None ->
  send_to_assessment alive self id message = Ok (self, []).
Proof. unfold send_to_assessment. intros ->. reflexivity. Qed.

Lemma send_to_assessment_no_subscriber_init :
  send_to_assessment all_open init "S1" "update" = Ok (init, []).
Proof.
  apply (send_to_assessment_no_subscriber all_open init "S1" "update").
  reflexivity.
Defined.

(** ** The fallback metrics *)

(** The neutral baseline returned when the analysis itself fails; the score
    computation never consults it. *)
Lemma get_fallback_metrics_baseline (now : string) :
  let fallback := _get_fallback_metrics now in
  metric fallback "voice_metrics" "confidence" = Some 70.0%f64 /\
  metric fallback "voice_metrics" "volume" = Some 65.0%f64 /\
  metric fallback "voice_metrics" "clarity" = Some 75.0%f64 /\
  metric fallback "voice_metrics" "audibility" = Some 80.0%f64 /\
  metric fallback "facial_metrics" "engagement_level" = Some 70.0%f64 /\
  metric fallback "facial_metrics" "expression_variety" = Some 65.0%f64 /\
  rule_input fallback "facial_metrics" "emotion" = Some (PStr "neutral").
Proof. repeat split. Qed.

(** * Further properties of the code *)

(** ** [ConnectionManager]: the list of active connections *)

Lemma truthy_Some (id : string) : id <> "" -> truthy (Some id) = Some id.
Proof. destruct id; [congruence | reflexivity]. Qed.

Lemma truthy_Some_inv (assessment_id : option string) (id : string) :
  truthy assessment_id = Some id -> assessment_id = Some id /\ id <> "".
Proof.
  destruct assessment_id as [[|c s]|]; cbn; intros H; try discriminate H.
  injection H as <-. split; [reflexivity | discriminate].
Qed.

Lemma existsb_eqb_In (x : WebSocket) (l : list WebSocket) :
  existsb (Nat.eqb x) l = true <-> In x l.
Proof.
  rewrite existsb_exists. split.
  - intros (y & Hy & Heq). apply Nat.eqb_eq in Heq. subst y. exact Hy.
  - intros Hin. exists x. split; [exact Hin | apply Nat.eqb_refl].
Qed.

Lemma remove_first_notin (x : WebSocket) (l : list WebSocket) :
  ~ In x l -> remove_first x l = l.
Proof.
  induction l as [|y l IH]; cbn; intros Hnotin; [reflexivity |].
  destruct (Nat.eqb_spec x y) as [-> | Hne].
  - exfalso. apply Hnotin. left. reflexivity.
  - f_equal. apply IH. intros Hin. apply Hnotin. right. exact Hin.
Qed.

Lemma remove_first_app_notin (x : WebSocket) (l : list WebSocket) :
  ~ In x l -> remove_first x (l ++ [x]) = l.
Proof.
  induction l as [|y l IH]; cbn; intros Hnotin.
  - rewrite Nat.eqb_refl. reflexivity.
  - destruct (Nat.eqb_spec x y) as [-> | Hne].
    + exfalso. apply Hnotin. left. reflexivity.
    + f_equal. apply IH. intros Hin. apply Hnotin. right. exact Hin.
Qed.

Lemma remove_first_In_ne (x y : WebSocket) (l : list WebSocket) :
  x <> y -> In y l -> In y (remove_first x l).
Proof.
  intros Hne. induction l as [|z l IH]; cbn; [tauto |].
  intros [-> | Hin].
  - destruct (Nat.eqb_spec x y) as [-> | _]; [contradiction | left; reflexivity].
  - destruct (Nat.eqb x z); [exact Hin | right; apply IH; exact Hin].
Qed.

Lemma remove_first_length (x : WebSocket) (l : list WebSocket) :
  In x l -> S (length (remove_first x l)) = length l.
Proof.
  induction l as [|y l IH]; cbn; [tauto |].
  intros Hin. destruct (Nat.eqb_spec x y) as [-> | Hne]; [reflexivity |].
  cbn. f_equal. apply IH. destruct Hin as [-> | Hin]; [contradiction | exact Hin].
Qed.

Lemma connect_Ok_inv (is_open : WebSocket -> bool) (self self' : t)
    (websocket : WebSocket) (assessment_id : option string)
    (trace : list event) :
  connect is_open self websocket assessment_id = Ok (self', trace) ->
  is_open websocket = true /\
  trace = [Accepted websocket] /\
  active_connections self' = (active_connections self ++ [websocket])%list /\
  assessment_connections self' =
    match truthy assessment_id with
    | Some id => <[id := websocket]> (assessment_connections self)
    | None => assessment_connections self
    end.
Proof.
  unfold connect, accept. destruct (is_open websocket); cbn; [|discriminate].
  intros [= <- <-]. destruct (truthy assessment_id); auto.
Qed.

(** X1: a socket that connects under a fresh session id and then
    disconnects under it leaves the manager exactly as it was before. *)
Theorem connect_disconnect_round_trip (is_open : WebSocket -> bool)
    (self self' : t) (websocket : WebSocket) (id : string)
    (trace : list event) :
  id <> "" ->
  ~ In websocket (active_connections self) ->
  assessment_connections self !! id = None ->
  connect is_open self websocket (Some id) = Ok (self', trace) ->
  disconnect self' websocket (Some id) = self.
Proof.
  intros Hid Hnew Hfree Hconnect.
  apply connect_Ok_inv in Hconnect as (_ & _ & Hactive & Hregistered).
  rewrite (truthy_Some _ Hid) in Hregistered.
  unfold disconnect. rewrite (truthy_Some _ Hid), Hactive, Hregistered.
  assert (Hin : existsb (Nat.eqb websocket)
                  (active_connections self ++ [websocket]) = true).
  { apply existsb_eqb_In, in_or_app. right. left. reflexivity. }
  rewrite Hin, (remove_first_app_notin _ _ Hnew), (delete_insert_id _ _ _ Hfree).
  destruct self. reflexivity.
Qed.

Lemma connect_disconnect_round_trip_init :
  disconnect
    {| active_connections := [1%nat];
       assessment_connections := <["S1" := 1%nat]> ∅ |}
    1%nat (Some "S1") = init.
Proof.
  apply (connect_disconnect_round_trip all_open init _ 1%nat "S1"
           [Accepted 1%nat]).
  - discriminate.
  - cbn. tauto.
  - reflexivity.
  - reflexivity.
Defined.

(** X2: the number of active connections grows by one with every accepted
    connect and shrinks by one with the disconnect of a listed socket; a
    disconnect of an unlisted socket leaves the list alone. *)
Theorem active_connections_count (is_open : WebSocket -> bool) (self : t)
    (websocket : WebSocket) (assessment_id : option string) :
  (forall self' trace,
     connect is_open self websocket assessment_id = Ok (self', trace) ->
     length (active_connections self') = S (length (active_connections self))) /\
  (In websocket (active_connections self) ->
   S (length (active_connections (disconnect self websocket assessment_id))) =
   length (active_connections self)) /\
  (~ In websocket (active_connections self) ->
   active_connections (disconnect self websocket assessment_id) =
   active_connections self).
Proof.
  split; [|split].
  - intros self' trace Hconnect.
    apply connect_Ok_inv in Hconnect as (_ & _ & -> & _).
    rewrite length_app. cbn. lia.
  - intros Hin. unfold disconnect.
    rewrite (proj2 (existsb_eqb_In _ _) Hin).
    destruct (truthy assessment_id); cbn; apply remove_first_length, Hin.
  - intros Hnotin. unfold disconnect.
    destruct (existsb (Nat.eqb websocket) (active_connections self)) eqn:Hex.
    + apply existsb_eqb_In in Hex. contradiction.
    + destruct (truthy assessment_id); reflexivity.
Qed.

(** ** [ConnectionManager]: who receives a message *)

(** X3: a disconnect under a session id removes the registration of that
    id whoever holds it. When a second observer has taken over the id, the
    departure of the first one silences the session although the second is
    still connected. *)
Theorem disconnect_silences_session (is_open alive : WebSocket -> bool)
    (self s1 s2 : t) (first second : WebSocket) (id message : string)
    (t1 t2 : list event) :
  id <> "" ->
  first <> second ->
  connect is_open self first (Some id) = Ok (s1, t1) ->
  connect is_open s1 second (Some id) = Ok (s2, t2) ->
  In second (active_connections (disconnect s2 first (Some id))) /\
  send_to_assessment alive (disconnect s2 first (Some id)) id message =
    Ok (disconnect s2 first (Some id), []).
Proof.
  intros Hid Hne H1 H2.
  apply connect_Ok_inv in H1 as (_ & _ & Ha1 & _).
  apply connect_Ok_inv in H2 as (_ & _ & Ha2 & _).
  split.
  - unfold disconnect. rewrite (truthy_Some _ Hid). cbn [active_connections].
    assert (Hin : In second (active_connections s2)).
    { rewrite Ha2. apply in_or_app. right. left. reflexivity. }
    destruct (existsb _ _); [|exact Hin].
    apply remove_first_In_ne; [exact Hne | exact Hin].
  - unfold send_to_assessment, disconnect. rewrite (truthy_Some _ Hid).
    cbn [assessment_connections]. rewrite lookup_delete_eq. reflexivity.
Qed.

Lemma disconnect_silences_session_S1 :
  In 2%nat (active_connections (serve all_open observer_comes_and_goes)) /\
  send_to_assessment all_open (serve all_open observer_comes_and_goes)
    "S1" "update" = Ok (serve all_open observer_comes_and_goes, []).
Proof.
  apply (disconnect_silences_session all_open all_open init
           (serve all_open [Connect 1%nat (Some "S1")])
           (serve all_open two_observers) 1%nat 2%nat "S1" "update"
           [Accepted 1%nat] [Accepted 2%nat]).
  - discriminate.
  - discriminate.
  - reflexivity.
  - reflexivity.
Defined.

(** X4: sessions do not interfere. A connect or disconnect under one
    session id (or under none) changes neither the outcome nor the recipient
    of a message published to another session id. *)
Theorem send_to_assessment_other_session (is_open alive : WebSocket -> bool)
    (self : t) (r : request) (id message : string) :
  request_id r <> Some id ->
  snd <$> send_to_assessment alive (handle is_open self r) id message =
  snd <$> send_to_assessment alive self id message.
Proof.
  intros Hother. unfold send_to_assessment.
  rewrite handle_registered.
  assert (Hstep : register_step is_open id (assessment_connections self !! id) r
                  = assessment_connections self !! id).
  { destruct r as [websocket assessment_id | websocket assessment_id];
      cbn in Hother |- *;
      rewrite (bool_decide_eq_false_2 _ Hother);
      [rewrite andb_false_r |]; reflexivity. }
  rewrite Hstep.
  destruct (assessment_connections self !! id) as [websocket|]; [|reflexivity].
  destruct (send_text alive websocket message); reflexivity.
Qed.

Lemma send_to_assessment_other_session_S2 :
  snd <$> send_to_assessment all_open
            (handle all_open (serve all_open two_observers)
               (Disconnect 2%nat (Some "S2"))) "S1" "update" =
  snd <$> send_to_assessment all_open (serve all_open two_observers)
            "S1" "update".
Proof.
  apply (send_to_assessment_other_session all_open all_open
           (serve all_open two_observers) (Disconnect 2%nat (Some "S2"))
           "S1" "update").
  cbn. discriminate.
Defined.

Lemma registered_active_init (session_of : WebSocket -> string) :
  registered_active session_of init.
Proof. intros id websocket H. cbn in H. rewrite lookup_empty in H. discriminate H. Qed.

Lemma registered_active_handle (is_open : WebSocket -> bool)
    (session_of : WebSocket -> string) (self : t) (r : request) :
  from_endpoint session_of r = true ->
  registered_active session_of self ->
  registered_active session_of (handle is_open self r).
Proof.
  intros Hr Hinv id websocket.
  destruct r as [ws assessment_id | ws assessment_id];
    cbn in Hr; apply bool_decide_eq_true_1 in Hr; subst assessment_id.
  - unfold handle.
    destruct (connect is_open self ws (Some (session_of ws)))
      as [[self' trace]|e] eqn:Hconnect; [|apply Hinv].
    apply connect_Ok_inv in Hconnect as (_ & _ & Hactive & Hregistered).
    rewrite Hactive, Hregistered.
    destruct (truthy (Some (session_of ws))) as [id'|] eqn:Htruthy.
    + destruct (decide (id' = id)) as [-> | Hne].
      * rewrite lookup_insert_eq. intros [= <-].
        split; [apply in_or_app; right; left; reflexivity | exact Htruthy].
      * rewrite lookup_insert_ne by exact Hne. intros Hlookup.
        destruct (Hinv _ _ Hlookup) as [Hin Hs].
        split; [apply in_or_app; left; exact Hin | exact Hs].
    + intros Hlookup. destruct (Hinv _ _ Hlookup) as [Hin Hs].
      split; [apply in_or_app; left; exact Hin | exact Hs].
  - unfold handle, disconnect.
    assert (Hkeep : forall ws', ws' <> ws ->
              In ws' (active_connections self) ->
              In ws' (if existsb (Nat.eqb ws) (active_connections self)
                      then remove_first ws (active_connections self)
                      else active_connections self)).
    { intros ws' Hne Hin. destruct (existsb _ _); [|exact Hin].
      apply remove_first_In_ne; [congruence | exact Hin]. }
    destruct (truthy (Some (session_of ws))) as [id'|] eqn:Htruthy;
      cbn [active_connections assessment_connections].
    + destruct (decide (id' = id)) as [-> | Hne].
      * rewrite lookup_delete_eq. discriminate.
      * rewrite lookup_delete_ne by exact Hne. intros Hlookup.
        destruct (Hinv _ _ Hlookup) as [Hin Hs].
        split; [|exact Hs]. apply Hkeep; [|exact Hin].
        intros ->. rewrite Htruthy in Hs. congruence.
    + intros Hlookup. destruct (Hinv _ _ Hlookup) as [Hin Hs].
      split; [|exact Hs]. apply Hkeep; [|exact Hin].
      intros ->. rewrite Htruthy in Hs. discriminate Hs.
Qed.

Lemma registered_active_fold (is_open : WebSocket -> bool)
    (session_of : WebSocket -> string) (requests : list request) (self : t) :
  forallb (from_endpoint session_of) requests = true ->
  registered_active session_of self ->
  registered_active session_of (fold_left (handle is_open) requests self).
Proof.
  revert self. induction requests as [|r requests IH]; intros self Hall Hinv.
  - exact Hinv.
  - cbn in Hall. apply andb_prop in Hall as [Hr Hall]. cbn [fold_left].
    apply IH; [exact Hall |].
    apply registered_active_handle; assumption.
Qed.

(** X5: when every socket connects and disconnects under the session id of
    its own URL, as the endpoint does, a message is only ever sent to a
    socket that is still listed as an active connection: never to one whose
    disconnect has been processed. *)
Theorem send_to_assessment_only_active (is_open alive : WebSocket -> bool)
    (session_of : WebSocket -> string) (requests : list request)
    (id message : string) (self : t) (trace : list event) :
  forallb (from_endpoint session_of) requests = true ->
  send_to_assessment alive (serve is_open requests) id message =
    Ok (self, trace) ->
  forall websocket text,
    In (SentText websocket text) trace ->
    In websocket (active_connections (serve is_open requests)).
Proof.
  intros Hall Hsend websocket text Hin.
  pose proof (registered_active_fold is_open session_of requests init Hall
                (registered_active_init session_of)) as Hinv.
  fold (serve is_open requests) in Hinv.
  unfold send_to_assessment in Hsend.
  destruct (assessment_connections (serve is_open requests) !! id)
    as [ws|] eqn:Hlookup.
  - unfold send_text in Hsend. destruct (alive ws); [|discriminate Hsend].
    cbn in Hsend. injection Hsend as _ <-.
    destruct Hin as [[= <- _] | []].
    exact (proj1 (Hinv _ _ Hlookup)).
  - injection Hsend as _ <-. destruct Hin.
Qed.

Lemma send_to_assessment_only_active_S1 :
  In 2%nat (active_connections (serve all_open two_observers)).
Proof.
  apply (send_to_assessment_only_active all_open all_open on_S1 two_observers
           "S1" "update" (serve all_open two_observers)
           [SentText 2%nat "update"] eq_refl eq_refl 2%nat "update").
  left. reflexivity.
Defined.

Lemma active_connections_count_init :
  S (length (active_connections
               (disconnect (serve all_open two_observers) 1%nat (Some "S1")))) =
  length (active_connections (serve all_open two_observers)).
Proof.
  apply (proj1 (proj2 (active_connections_count all_open
                         (serve all_open two_observers) 1%nat (Some "S1")))).
  cbn. tauto.
Defined.

(** ** [AIAnalysisEngine]: the final report *)

Lemma select_assessment_data_has_data (db : DatabaseManager.t) (id : string) :
  DatabaseManager.available db = true ->
  has_data db id = true ->
  exists row rows,
    DatabaseManager.select_assessment_data db id = Ok (row :: rows).
Proof.
  unfold DatabaseManager.select_assessment_data, has_data. intros -> Hex.
  induction (DatabaseManager.assessment_data db) as [|r l IH];
    cbn in Hex |- *; [discriminate Hex |].
  destruct (String.eqb (DatabaseManager.assessment_id r) id); [eauto |].
  cbn in Hex. destruct (IH Hex) as (row & rows & [= ->]). eauto.
Qed.

Lemma select_assessment_data_no_data (db : DatabaseManager.t) (id : string) :
  DatabaseManager.available db = true ->
  has_data db id = false ->
  DatabaseManager.select_assessment_data db id = Ok [].
Proof.
  unfold DatabaseManager.select_assessment_data, has_data. intros -> Hex.
  f_equal.
  induction (DatabaseManager.assessment_data db) as [|r l IH];
    cbn in Hex |- *; [reflexivity |].
  destruct (String.eqb (DatabaseManager.assessment_id r) id);
    [discriminate Hex | exact (IH Hex)].
Qed.

(** X6: the final report takes one of two fixed shapes. With the database
    open and at least one data point stored for the assessment it is the
    placeholder report (76.4, one recommendation); in every other case it is
    the fallback report (75.0). Either way the eligibility is
    ['needs-improvement']: no assessment is ever reported eligible or not
    eligible. *)
Theorem generate_final_report_outcomes (db : DatabaseManager.t) (id : string) :
  generate_final_report db id =
    (if DatabaseManager.available db && has_data db id
     then placeholder_report id
     else _get_fallback_result id) /\
  eligibility (generate_final_report db id) = "needs-improvement".
Proof.
  assert (Hshape : generate_final_report db id =
            (if DatabaseManager.available db && has_data db id
             then placeholder_report id
             else _get_fallback_result id)).
  { unfold generate_final_report, generate_final_report_try.
    destruct (DatabaseManager.available db) eqn:Havailable; cbn [andb].
    - destruct (has_data db id) eqn:Hdata.
      + destruct (select_assessment_data_has_data _ _ Havailable Hdata)
          as (row & rows & ->).
        vm_compute. reflexivity.
      + rewrite (select_assessment_data_no_data _ _ Havailable Hdata).
        reflexivity.
    - unfold DatabaseManager.select_assessment_data. rewrite Havailable.
      reflexivity. }
  split; [exact Hshape |].
  rewrite Hshape.
  destruct (DatabaseManager.available db && has_data db id); reflexivity.
Qed.

(** ** [AIAnalysisEngine]: the derived teaching metrics *)

Lemma get_None {V : Type} (d : gmap string V) (k : string) (dflt : V) :
  d !! k = None -> get d k dflt = dflt.
Proof. unfold get. intros ->. reflexivity. Qed.

Lemma get_Some {V : Type} (d : gmap string V) (k : string) (dflt v : V) :
  d !! k = Some v -> get d k dflt = v.
Proof. unfold get. intros ->. reflexivity. Qed.

(** X7: the derived metrics never fail on a missing key. When the voice map
    has neither [confidence] nor [clarity] and the facial map has no
    [engagement], the defaults give 50.0, 70 and 65. *)
Theorem calculate_teaching_metrics_defaults (voice_metrics facial_metrics : dict) :
  voice_metrics !! "confidence" = None ->
  voice_metrics !! "clarity" = None ->
  facial_metrics !! "engagement" = None ->
  _calculate_teaching_metrics voice_metrics facial_metrics =
  Ok (teaching (PFloat 50.0) (PInt 70) (PInt 65)).
Proof.
  intros Hconfidence Hclarity Hengagement.
  unfold _calculate_teaching_metrics.
  rewrite (get_None _ _ _ Hconfidence), (get_None _ _ _ Hclarity),
    (get_None _ _ _ Hengagement).
  vm_compute. reflexivity.
Qed.

Lemma calculate_teaching_metrics_defaults_facial :
  _calculate_teaching_metrics ∅ sample_facial =
  Ok (teaching (PFloat 50.0) (PInt 70) (PInt 65)).
Proof.
  apply (calculate_teaching_metrics_defaults ∅ sample_facial); reflexivity.
Defined.

(** X8: a facial map without the key [engagement] -- every map the
    analyzers, the fallback and the aggregate produce -- has no influence on
    the derived metrics, and [student_engagement] is then the constant 65. *)
Theorem calculate_teaching_metrics_facial_unused
    (voice_metrics facial_metrics : dict) :
  facial_metrics !! "engagement" = None ->
  _calculate_teaching_metrics voice_metrics facial_metrics =
    _calculate_teaching_metrics voice_metrics ∅ /\
  forall d,
    _calculate_teaching_metrics voice_metrics facial_metrics = Ok d ->
    d !! "student_engagement" = Some (PInt 65).
Proof.
  intros Hengagement.
  unfold _calculate_teaching_metrics.
  rewrite !(get_None facial_metrics _ _ Hengagement).
  rewrite !(get_None (∅ : dict) "engagement" _ (lookup_empty _)).
  split; [reflexivity |].
  intros d H.
  apply bind_Ok_inv in H as (total & _ & H).
  apply bind_Ok_inv in H as (half & _ & H).
  apply bind_Ok_inv in H as (interaction_score & _ & H).
  apply bind_Ok_inv in H as (shifted & _ & H).
  apply bind_Ok_inv in H as (example_usage & _ & H).
  change (py_add (PInt 50) (PInt 15)) with (Ok (PInt 65)) in H.
  rewrite bind_Ok in H.
  change (py_min (PInt 100) (PInt 65)) with (Ok (PInt 65)) in H.
  rewrite bind_Ok in H.
  apply bind_Ok_inv in H as (r1 & _ & H).
  apply bind_Ok_inv in H as (r2 & _ & H).
  cbn in H. injection H as <-.
  unfold dict. rewrite !lookup_insert_ne by discriminate.
  apply lookup_insert_eq.
Qed.

Lemma calculate_teaching_metrics_facial_unused_sample :
  _calculate_teaching_metrics sample_voice sample_facial =
    _calculate_teaching_metrics sample_voice ∅ /\
  forall d,
    _calculate_teaching_metrics sample_voice sample_facial = Ok d ->
    d !! "student_engagement" = Some (PInt 65).
Proof.
  apply (calculate_teaching_metrics_facial_unused sample_voice sample_facial).
  reflexivity.
Defined.

(** X9: a text where a number is expected is never accepted. A string under
    [confidence] makes the computation raise [TypeError], whatever the
    facial map holds; a string under [clarity] makes it raise too. *)
Theorem calculate_teaching_metrics_string (voice_metrics facial_metrics : dict)
    (s : string) :
  (voice_metrics !! "confidence" = Some (PStr s) ->
   _calculate_teaching_metrics voice_metrics facial_metrics = Raise TypeError) /\
  (voice_metrics !! "clarity" = Some (PStr s) ->
   exists e, _calculate_teaching_metrics voice_metrics facial_metrics = Raise e).
Proof.
  split.
  - intros Hconfidence. unfold _calculate_teaching_metrics.
    rewrite (get_Some _ _ _ _ Hconfidence).
    destruct (get facial_metrics "engagement" (PInt 50)) as [z|x|t];
      reflexivity.
  - intros Hclarity.
    destruct (_calculate_teaching_metrics voice_metrics facial_metrics)
      as [d|e] eqn:H; [|eauto].
    unfold _calculate_teaching_metrics in H.
    rewrite (get_Some _ _ _ _ Hclarity) in H.
    apply bind_Ok_inv in H as (total & _ & H).
    apply bind_Ok_inv in H as (half & _ & H).
    apply bind_Ok_inv in H as (interaction_score & _ & H).
    discriminate H.
Qed.

(** X10: the derived metrics are capped at 100 but not at 0. For an
    integer [clarity] the example usage is [min(100, clarity + 20)], which is
    negative for a clarity below -20. *)
Theorem calculate_teaching_metrics_no_floor (voice_metrics facial_metrics : dict)
    (clarity : Z) :
  voice_metrics !! "confidence" = None ->
  voice_metrics !! "clarity" = Some (PInt clarity) ->
  facial_metrics !! "engagement" = None ->
  _calculate_teaching_metrics voice_metrics facial_metrics =
  Ok (teaching (PFloat 50.0) (PInt (Z.min 100 (clarity + 20))) (PInt 65)).
Proof.
  intros Hconfidence Hclarity Hengagement.
  unfold _calculate_teaching_metrics.
  rewrite (get_None _ _ _ Hconfidence), (get_Some _ _ _ _ Hclarity),
    (get_None _ _ _ Hengagement).
  change (py_add (PInt 50) (PInt 50)) with (Ok (PInt 100)). rewrite bind_Ok.
  change (py_truediv (PInt 100) (PInt 2)) with (Ok (PFloat 50.0)).
  rewrite bind_Ok.
  change (py_min (PInt 100) (PFloat 50.0)) with (Ok (PFloat 50.0)).
  rewrite bind_Ok.
  change (py_add (PInt clarity) (PInt 20)) with (Ok (PInt (clarity + 20))).
  rewrite bind_Ok.
  assert (Hmin : py_min (PInt 100) (PInt (clarity + 20)) =
                 Ok (PInt (Z.min 100 (clarity + 20)))).
  { unfold py_min, py_lt. cbn. rewrite Qcompare_inject_Z.
    destruct (Z.compare_spec (clarity + 20) 100) as [Heq | Hlt | Hgt]; cbn;
      do 2 f_equal; lia. }
  rewrite Hmin, bind_Ok.
  reflexivity.
Qed.

Lemma calculate_teaching_metrics_no_floor_negative :
  _calculate_teaching_metrics (<["clarity" := PInt (-50)]> ∅) ∅ =
  Ok (teaching (PFloat 50.0) (PInt (-30)) (PInt 65)).
Proof.
  apply (calculate_teaching_metrics_no_floor
           (<["clarity" := PInt (-50)]> ∅) ∅ (-50)); reflexivity.
Defined.

(** ** [AIAnalysisEngine]: eligibility of any value *)

(** X11: every number gets a tier, also the ones that are no score: NaN
    compares false with both thresholds and is ['not-eligible'], and so is
    minus infinity, while plus infinity is ['eligible']. Only a value that is
    no number raises, and then [TypeError]. *)
Theorem determine_eligibility_total (score : pyval) :
  match score with
  | PStr _ => _determine_eligibility score = Raise TypeError
  | PInt _ | PFloat _ =>
      exists tier, In tier tiers /\ _determine_eligibility score = Ok tier
  end /\
  _determine_eligibility (PFloat S754_nan) = Ok "not-eligible" /\
  _determine_eligibility (PFloat (S754_infinity true)) = Ok "not-eligible" /\
  _determine_eligibility (PFloat (S754_infinity false)) = Ok "eligible".
Proof.
  split; [|repeat split].
  assert (Hnum : forall x, num_value score = Some x ->
            exists tier, In tier tiers /\ _determine_eligibility score = Ok tier).
  { intros x Hx. unfold _determine_eligibility, py_ge, py_compare.
    assert (Hcmp : forall bound,
              match score, PInt bound with
              | PStr a, PStr b => Ok (Some (String.compare a b))
              | _, _ =>
                  match num_value score, num_value (PInt bound) with
                  | Some a, Some b => Ok (xcompare a b)
                  | _, _ => Raise TypeError
                  end
              end = Ok (xcompare x (XFin (inject_Z bound)))).
    { intros bound. destruct score; cbn in Hx |- *;
        [injection Hx as <- | injection Hx as <- | discriminate Hx];
        reflexivity. }
    rewrite !Hcmp. cbn.
    destruct (xcompare x (XFin (inject_Z 85))) as [[]|];
      destruct (xcompare x (XFin (inject_Z 70))) as [[]|]; cbn;
      eexists; (split; [|reflexivity]); cbn; tauto. }
  destruct score as [z|x|s]; [eapply Hnum | eapply Hnum | reflexivity];
    reflexivity.
Qed.

(** ** [AIAnalysisEngine]: the exception of the overall score *)

Lemma calculate_overall_score_KeyError_confidence :
  _calculate_overall_score snapshot_without_confidence =
  Raise (KeyError "confidence").
Proof.
  apply (calculate_overall_score_KeyError snapshot_without_confidence).
  - intros group key Hin. cbn in Hin.
    destruct Hin as [[= <- <-] | Hin]; [left; exact lacks_confidence |].
    right.
    repeat (destruct Hin as [[= <- <-] | Hin];
            [eexists; vm_compute; reflexivity |]).
    contradiction.
  - reflexivity.
Defined.

(** ** [RecommendationEngine]: one rule, one metric *)

Lemma In_triggered_recommendations (metrics : gmap string pyobj)
    (rule : string * string * Z * recommendation) :
  In rule rule_table ->
  In (snd rule) (triggered_recommendations metrics) <->
  triggered metrics rule = true.
Proof.
  unfold triggered_recommendations, rule_table. cbn [List.filter In].
  intros Hin.
  repeat (destruct Hin as [<- | Hin]; [
    repeat match goal with
           | |- context [triggered metrics (?g, ?k, ?b, ?r)] =>
               destruct (triggered metrics (g, k, b, r))
           end;
    cbn; split; intros H; try reflexivity; try discriminate H;
    try (left; reflexivity);
    try (right; left; reflexivity);
    try (right; right; left; reflexivity);
    try (right; right; right; left; reflexivity);
    try (right; right; right; right; left; reflexivity);
    repeat (destruct H as [H | H]; try discriminate H); try contradiction
  |]).
  contradiction.
Qed.

Lemma rule_input_update (metrics : gmap string pyobj) (group key : string)
    (d : dict) (v : pyval) (group' key' : string) :
  metrics !! group = Some (ODict d) ->
  (group', key') <> (group, key) ->
  rule_input (<[group := ODict (<[key := v]> d)]> metrics) group' key' =
  rule_input metrics group' key'.
Proof.
  intros Hgroup Hne. unfold rule_input.
  destruct (decide (group' = group)) as [-> | Hg].
  - rewrite lookup_insert_eq, Hgroup. unfold dict in *.
    apply lookup_insert_ne. congruence.
  - rewrite lookup_insert_ne by congruence. reflexivity.
Qed.

Lemma rule_input_ok_update (metrics : gmap string pyobj) (group key : string)
    (d : dict) (v : pyval) (rule : string * string * Z * recommendation) :
  metrics !! group = Some (ODict d) ->
  (forall s, v <> PStr s) ->
  rule_input_ok metrics rule = true ->
  rule_input_ok (<[group := ODict (<[key := v]> d)]> metrics) rule = true.
Proof.
  intros Hgroup Hv. destruct rule as [[[group' key'] bound] r].
  unfold rule_input_ok.
  destruct (decide (group' = group)) as [-> | Hg].
  - rewrite lookup_insert_eq, Hgroup. unfold dict in *.
    destruct (decide (key' = key)) as [-> | Hk].
    + rewrite lookup_insert_eq. intros _.
      destruct v as [z|x|s]; [reflexivity | reflexivity |].
      exfalso. exact (Hv s eq_refl).
    + rewrite lookup_insert_ne by congruence. tauto.
  - rewrite lookup_insert_ne by congruence. tauto.
Qed.

(** X12: the rules are independent. Replacing the value of one metric by
    another number can change only the recommendation of the rule that reads
    that metric: every other recommendation is issued after the change
    exactly when it was issued before. *)
Theorem generate_recommendations_independent (metrics : gmap string pyobj)
    (group key : string) (d : dict) (v : pyval)
    (before after : list recommendation) :
  rules_well_formed metrics = true ->
  metrics !! group = Some (ODict d) ->
  (forall s, v <> PStr s) ->
  generate_recommendations metrics = Ok before ->
  generate_recommendations (<[group := ODict (<[key := v]> d)]> metrics) =
    Ok after ->
  forall rule,
    In rule rule_table ->
    rule_key rule <> (group, key) ->
    In (snd rule) before <-> In (snd rule) after.
Proof.
  intros Hwf Hgroup Hv Hbefore Hafter rule Hin Hkey.
  assert (Hwf' : rules_well_formed
                   (<[group := ODict (<[key := v]> d)]> metrics) = true).
  { unfold rules_well_formed in *. apply forallb_forall.
    intros rule' Hin'. apply rule_input_ok_update; [assumption .. |].
    exact (proj1 (forallb_forall _ _) Hwf rule' Hin'). }
  rewrite (generate_recommendations_triggered _ Hwf) in Hbefore.
  rewrite (generate_recommendations_triggered _ Hwf') in Hafter.
  injection Hbefore as <-. injection Hafter as <-.
  rewrite !In_triggered_recommendations by exact Hin.
  destruct rule as [[[group' key'] bound] r]. cbn in Hkey.
  unfold triggered.
  rewrite (rule_input_update _ _ _ _ _ _ _ Hgroup Hkey). tauto.
Qed.

Lemma generate_recommendations_independent_confidence :
  In enhance_voice_projection
    [ improve_voice_confidence; enhance_voice_projection;
      increase_facial_expressiveness; increase_student_interaction;
      use_more_examples ] <->
  In enhance_voice_projection
    [ enhance_voice_projection; increase_facial_expressiveness;
      increase_student_interaction; use_more_examples ].
Proof.
  apply (generate_recommendations_independent weak_snapshot
           "voice_metrics" "confidence" sample_voice (PFloat 90.0) _ _
           eq_refl eq_refl ltac:(discriminate)
           ltac:(vm_compute; reflexivity) ltac:(vm_compute; reflexivity)
           ("voice_metrics", "audibility", 75, enhance_voice_projection)).
  - cbn. tauto.
  - discriminate.
Defined.

(** ** [DatabaseManager]: stored data points *)

(** X13: a saved data point becomes one new row of [assessment_data] that
    holds the assessment id and the three metric maps of the data point under
    the next key, stamped with the database's clock and not with the
    timestamp the data point carries. The query for its assessment then
    returns what it returned before followed by that row, and the query for
    any other assessment returns what it returned before. *)
Theorem save_then_select (db db' : AssessmentDataTable.t) (now : string)
    (data : DatabaseManager.AssessmentData) (wanted : string) :
  AssessmentDataTable.save_assessment_data db now data = Ok db' ->
  AssessmentDataTable.select_assessment_data db' wanted =
  (earlier ← AssessmentDataTable.select_assessment_data db wanted;
   Ok (if String.eqb (DatabaseManager.assessment_id data) wanted
       then (earlier ++
             [ {| AssessmentDataTable.id :=
                    AssessmentDataTable.next_id (AssessmentDataTable.rows db);
                  AssessmentDataTable.assessment_id :=
                    DatabaseManager.assessment_id data;
                  AssessmentDataTable.timestamp := now;
                  AssessmentDataTable.voice_metrics :=
                    DatabaseManager.voice_metrics data;
                  AssessmentDataTable.facial_metrics :=
                    DatabaseManager.facial_metrics data;
                  AssessmentDataTable.teaching_metrics :=
                    DatabaseManager.teaching_metrics data |} ])%list
       else earlier)).
Proof.
  unfold AssessmentDataTable.save_assessment_data,
    AssessmentDataTable.select_assessment_data.
  destruct (AssessmentDataTable.available db); [|discriminate].
  intros [= <-]. cbn. rewrite List.filter_app. cbn.
  destruct (String.eqb (DatabaseManager.assessment_id data) wanted);
    [reflexivity | rewrite app_nil_r; reflexivity].
Qed.

Lemma save_then_select_sample :
  AssessmentDataTable.select_assessment_data
    {| AssessmentDataTable.available := true;
       AssessmentDataTable.rows :=
         [ {| AssessmentDataTable.id := 1;
              AssessmentDataTable.assessment_id := "S1";
              AssessmentDataTable.timestamp := "2024-05-01 10:00:00";
              AssessmentDataTable.voice_metrics := sample_voice;
              AssessmentDataTable.facial_metrics := sample_facial;
              AssessmentDataTable.teaching_metrics := ∅ |} ] |} "S1" =
  Ok [ {| AssessmentDataTable.id := 1;
          AssessmentDataTable.assessment_id := "S1";
          AssessmentDataTable.timestamp := "2024-05-01 10:00:00";
          AssessmentDataTable.voice_metrics := sample_voice;
          AssessmentDataTable.facial_metrics := sample_facial;
          AssessmentDataTable.teaching_metrics := ∅ |} ].
Proof.
  exact (save_then_select AssessmentDataTable.empty _ "2024-05-01 10:00:00"
           sample_data "S1" eq_refl).
Defined.

(** ** [SentimentAnalyzer] *)

Lemma count_bounds (words : list string) (text : string) :
  0 <= SentimentAnalyzer.count words text <= Z.of_nat (length words).
Proof.
  unfold SentimentAnalyzer.count. split; [lia |].
  apply inj_le.
  induction words as [|w ws IH]; cbn; [lia |].
  destruct (SentimentAnalyzer.contains w text); cbn; lia.
Qed.

Lemma count_none (words : list string) (text : string) :
  (forall word, In word words -> SentimentAnalyzer.contains word text = false) ->
  SentimentAnalyzer.count words text = 0.
Proof.
  unfold SentimentAnalyzer.count. intros Hnone.
  induction words as [|w ws IH]; cbn; [reflexivity |].
  rewrite (Hnone w (or_introl eq_refl)). apply IH.
  intros word Hin. apply Hnone. right. exact Hin.
Qed.

Lemma count_some (words : list string) (text word : string) :
  In word words -> SentimentAnalyzer.contains word text = true ->
  1 <= SentimentAnalyzer.count words text.
Proof.
  unfold SentimentAnalyzer.count. intros Hin Hword.
  induction words as [|w ws IH]; cbn; [destruct Hin |].
  destruct Hin as [-> | Hin].
  - rewrite Hword. cbn. lia.
  - specialize (IH Hin). destruct (SentimentAnalyzer.contains w text); cbn; lia.
Qed.

(** The confidence for each pair of counts the word lists allow. *)
Lemma confidence_cases (p n : Z) :
  0 <= p <= 6 -> 0 <= n <= 5 ->
  exists c q,
    py_truediv (PInt (Z.abs (p - n))) (PInt (Z.max 1 (p + n))) =
      Ok (PFloat c) /\
    float_value c = XFin q /\
    (0 <= q)%Q /\ (q <= 1)%Q /\
    ((q == 0)%Q <-> p = n) /\
    (1 <= p -> n = 0 -> c = 1.0%f64).
Proof.
  intros Hp Hn.
  assert (Hp' : p = 0 \/ p = 1 \/ p = 2 \/ p = 3 \/ p = 4 \/ p = 5 \/ p = 6)
    by lia.
  assert (Hn' : n = 0 \/ n = 1 \/ n = 2 \/ n = 3 \/ n = 4 \/ n = 5) by lia.
  clear Hp Hn.
  repeat (destruct Hp' as [-> | Hp']);
    try subst p;
    repeat (destruct Hn' as [-> | Hn']);
    try subst n;
    (eexists _, _;
     split; [vm_compute; reflexivity |];
     split; [reflexivity |];
     split; [apply Qle_bool_imp_le; vm_compute; reflexivity |];
     split; [apply Qle_bool_imp_le; vm_compute; reflexivity |];
     split;
     [ split; intros H;
       first [ reflexivity
             | vm_compute; reflexivity
             | discriminate H
             | vm_compute in H; discriminate H ]
     | intros H1 H0;
       first [ reflexivity | discriminate H0 | exfalso; lia ] ]).
Qed.

(** X14: the sentiment analysis never fails. It returns one of the three
    labels with a confidence between 0 and 1, and the label is ['neutral']
    exactly when the confidence is 0. *)
Theorem sentiment_confidence_range (text : string) :
  exists sentiment confidence q,
    verdict text sentiment confidence /\
    In sentiment ["positive"; "negative"; "neutral"] /\
    float_value confidence = XFin q /\
    (0 <= q)%Q /\ (q <= 1)%Q /\
    (sentiment = "neutral" <-> (q == 0)%Q).
Proof.
  unfold verdict, SentimentAnalyzer.analyze.
  pose proof (count_bounds SentimentAnalyzer.positive_words
                (SentimentAnalyzer.lower text)) as Hp.
  pose proof (count_bounds SentimentAnalyzer.negative_words
                (SentimentAnalyzer.lower text)) as Hn.
  cbn [length SentimentAnalyzer.positive_words
       SentimentAnalyzer.negative_words] in Hp, Hn.
  set (p := SentimentAnalyzer.count SentimentAnalyzer.positive_words
              (SentimentAnalyzer.lower text)) in *.
  set (n := SentimentAnalyzer.count SentimentAnalyzer.negative_words
              (SentimentAnalyzer.lower text)) in *.
  destruct (confidence_cases p n ltac:(lia) ltac:(lia))
    as (c & q & -> & Hq & H0 & H1 & Hzero & _).
  rewrite bind_Ok.
  eexists _, c, q. split; [reflexivity |].
  split.
  { destruct (n <? p); [cbn; tauto |]. destruct (p <? n); cbn; tauto. }
  split; [exact Hq |]. split; [exact H0 |]. split; [exact H1 |].
  rewrite Hzero.
  destruct (Z.ltb_spec n p) as [Hlt | Hge].
  - split; [discriminate | lia].
  - destruct (Z.ltb_spec p n) as [Hlt' | Hge'].
    + split; [discriminate | lia].
    + split; [lia | reflexivity].
Qed.

(** X15: a text that contains one of the positive words, in any letter
    case, and none of the negative words is ['positive'] with confidence
    1.0. *)
Theorem sentiment_positive (text word : string) :
  In word SentimentAnalyzer.positive_words ->
  SentimentAnalyzer.contains word (SentimentAnalyzer.lower text) = true ->
  (forall bad, In bad SentimentAnalyzer.negative_words ->
     SentimentAnalyzer.contains bad (SentimentAnalyzer.lower text) = false) ->
  verdict text "positive" 1.0.
Proof.
  intros Hin Hword Hnone.
  unfold verdict, SentimentAnalyzer.analyze.
  pose proof (count_bounds SentimentAnalyzer.positive_words
                (SentimentAnalyzer.lower text)) as Hp.
  pose proof (count_some _ _ _ Hin Hword) as Hp1.
  rewrite (count_none _ _ Hnone).
  cbn [length SentimentAnalyzer.positive_words] in Hp.
  set (p := SentimentAnalyzer.count SentimentAnalyzer.positive_words
              (SentimentAnalyzer.lower text)) in *.
  destruct (confidence_cases p 0 ltac:(lia) ltac:(lia))
    as (c & q & -> & _ & _ & _ & _ & Hone).
  rewrite bind_Ok, (Hone Hp1 eq_refl).
  destruct (Z.ltb_spec 0 p) as [_ | Hle]; [reflexivity | lia].
Qed.

(** ** The table of assessments *)

Lemma find_known (db : Store.t) (assessment_id : string) :
  known db assessment_id = false ->
  List.find (fun a => String.eqb (Store.id a) assessment_id)
    (Store.assessments db) = None.
Proof.
  unfold known. induction (Store.assessments db) as [|a rows IH]; cbn;
    [reflexivity |].
  destruct (String.eqb (Store.id a) assessment_id); [discriminate | exact IH].
Qed.

Lemma known_find (db : Store.t) (assessment_id : string) :
  known db assessment_id = true ->
  exists a,
    List.find (fun a => String.eqb (Store.id a) assessment_id)
      (Store.assessments db) = Some a.
Proof.
  unfold known. induction (Store.assessments db) as [|a rows IH]; cbn;
    [discriminate |].
  destruct (String.eqb (Store.id a) assessment_id); [eauto | exact IH].
Qed.

Lemma find_snoc (p : Store.assessment -> bool) (rows : list Store.assessment)
    (a : Store.assessment) :
  List.find p rows = None -> p a = true ->
  List.find p (rows ++ [a]) = Some a.
Proof.
  intros Hnone Ha. induction rows as [|b rows IH]; cbn in *.
  - rewrite Ha. reflexivity.
  - destruct (p b); [discriminate Hnone | exact (IH Hnone)].
Qed.

Lemma update_where_unknown (assessment_id : string)
    (change : Store.assessment -> Store.assessment)
    (rows : list Store.assessment) :
  existsb (fun a => String.eqb (Store.id a) assessment_id) rows = false ->
  Store.update_where assessment_id change rows = rows.
Proof.
  unfold Store.update_where. induction rows as [|a rows IH]; cbn;
    [reflexivity |].
  destruct (String.eqb (Store.id a) assessment_id); [discriminate |].
  intros H. rewrite (IH H). reflexivity.
Qed.

Lemma find_update_where (assessment_id other : string)
    (change : Store.assessment -> Store.assessment)
    (rows : list Store.assessment) :
  (forall a, Store.id (change a) = Store.id a) ->
  List.find (fun a => String.eqb (Store.id a) other)
    (Store.update_where assessment_id change rows) =
  (fun a => if String.eqb (Store.id a) assessment_id then change a else a) <$>
  List.find (fun a => String.eqb (Store.id a) other) rows.
Proof.
  intros Hid. unfold Store.update_where.
  induction rows as [|a rows IH]; cbn; [reflexivity |].
  assert (Hsame : Store.id (if String.eqb (Store.id a) assessment_id
                            then change a else a) = Store.id a).
  { destruct (String.eqb (Store.id a) assessment_id); [apply Hid | reflexivity]. }
  rewrite Hsame.
  destruct (String.eqb (Store.id a) other); [reflexivity | exact IH].
Qed.

(** X16: an assessment that was created is found again. The route for
    reading it returns the submitted teacher, institution, subject and
    duration, with the status ['pending']. *)
Theorem create_then_get (db db' : Store.t) (now_seconds name_hash : Z)
    (now : string) (request : Store.AssessmentRequest) (id : string) :
  Api.create_assessment db now_seconds name_hash now request =
    (db', Api.Success id) ->
  exists body,
    Api.get_assessment db' id = Api.Success body /\
    body !! "id" = Some (Store.CVal (PStr id)) /\
    body !! "teacher_name" =
      Some (Store.CVal (PStr (Store.teacher_name request))) /\
    body !! "teacher_email" =
      Some (Store.CVal (PStr (Store.teacher_email request))) /\
    body !! "institution" =
      Some (Store.CVal (PStr (Store.institution request))) /\
    body !! "subject" = Some (Store.CVal (PStr (Store.subject request))) /\
    body !! "duration" = Some (Store.CVal (PInt (Store.duration request))) /\
    body !! "status" = Some (Store.CVal (PStr "pending")).
Proof.
  unfold Api.create_assessment, Store.create_assessment.
  destruct (Store.available db) eqn:Havailable; cbn [negb]; [|discriminate].
  set (new_id := "assess_" ++ pretty now_seconds ++ "_" ++
                 pretty (name_hash mod 10000)).
  destruct (existsb _ (Store.assessments db)) eqn:Hknown; [discriminate |].
  intros [= <- <-].
  unfold Api.get_assessment, Store.select_assessment.
  unfold Store.available in *. cbn [Store.data Store.assessments].
  rewrite Havailable. cbn [negb].
  rewrite (find_snoc _ _ _ (find_known db new_id Hknown))
    by (cbn; apply String.eqb_refl).
  cbn [fmap option_fmap option_map].
  eexists. split; [reflexivity |].
  unfold Api.assessment_body.
  repeat split;
    repeat (rewrite lookup_insert_ne by discriminate);
    rewrite lookup_insert_eq; reflexivity.
Qed.

Lemma create_then_get_ada :
  exists body,
    Api.get_assessment store_with_ada "assess_1700000000_1234" =
      Api.Success body /\
    body !! "id" = Some (Store.CVal (PStr "assess_1700000000_1234")) /\
    body !! "teacher_name" = Some (Store.CVal (PStr "Ada")) /\
    body !! "teacher_email" = Some (Store.CVal (PStr "ada@example.org")) /\
    body !! "institution" = Some (Store.CVal (PStr "Analytical School")) /\
    body !! "subject" = Some (Store.CVal (PStr "Mathematics")) /\
    body !! "duration" = Some (Store.CVal (PInt 15)) /\
    body !! "status" = Some (Store.CVal (PStr "pending")).
Proof.
  apply (create_then_get fresh_store store_with_ada 1700000000 1234
           "2023-11-14 22:13:20" ada "assess_1700000000_1234").
  vm_compute. reflexivity.
Defined.

(** X17: assessment ids are built from the second of creation and the
    hash of the teacher's name modulo 10000. A second creation in the same
    second with a hash that agrees modulo 10000 is refused: the route answers
    500 and stores nothing. *)
Theorem create_assessment_collision (db db1 : Store.t)
    (now_seconds hash1 hash2 : Z) (now1 now2 : string)
    (first second : Store.AssessmentRequest) (id : string) :
  hash1 mod 10000 = hash2 mod 10000 ->
  Api.create_assessment db now_seconds hash1 now1 first =
    (db1, Api.Success id) ->
  Api.create_assessment db1 now_seconds hash2 now2 second =
    (db1, Api.HTTPException 500 "Failed to create assessment").
Proof.
  intros Hhash.
  unfold Api.create_assessment, Store.create_assessment.
  rewrite <- Hhash.
  destruct (Store.available db) eqn:Havailable; cbn [negb]; [|discriminate].
  set (new_id := "assess_" ++ pretty now_seconds ++ "_" ++
                 pretty (hash1 mod 10000)).
  destruct (existsb _ (Store.assessments db)) eqn:Hknown; [discriminate |].
  intros [= <- <-].
  unfold Store.available in *. cbn [Store.data Store.assessments].
  rewrite Havailable. cbn [negb].
  rewrite existsb_app. cbn [existsb Store.id].
  rewrite String.eqb_refl, orb_true_r. reflexivity.
Qed.

Lemma create_assessment_collision_ada :
  Api.create_assessment store_with_ada 1700000000 41234 "2023-11-14 22:13:20"
    ada =
  (store_with_ada, Api.HTTPException 500 "Failed to create assessment").
Proof.
  apply (create_assessment_collision fresh_store store_with_ada 1700000000
           1234 41234 "2023-11-14 22:13:20" "2023-11-14 22:13:20" ada ada
           "assess_1700000000_1234").
  - reflexivity.
  - vm_compute. reflexivity.
Defined.

(** X18: starting an assessment that does not exist is not an error. The
    route answers success and the database is left as it was. *)
Theorem start_assessment_unknown (db : Store.t) (now assessment_id : string) :
  Store.available db = true ->
  known db assessment_id = false ->
  Api.start_assessment db now assessment_id =
    (db, Api.Success "Assessment started").
Proof.
  intros Havailable Hunknown.
  unfold Api.start_assessment, Store.update_assessment_status.
  rewrite Havailable. cbn [negb].
  rewrite (update_where_unknown _ _ _ Hunknown).
  destruct db. reflexivity.
Qed.

Lemma start_assessment_unknown_fresh :
  Api.start_assessment fresh_store "2023-11-14 22:13:20" "S1" =
    (fresh_store, Api.Success "Assessment started").
Proof.
  apply (start_assessment_unknown fresh_store); reflexivity.
Defined.

(** ** Completing an assessment *)

Lemma generate_final_report_cases (db : DatabaseManager.t) (id : string) :
  generate_final_report db id = placeholder_report id \/
  generate_final_report db id = _get_fallback_result id.
Proof.
  unfold generate_final_report, generate_final_report_try.
  destruct (DatabaseManager.select_assessment_data db id) as [[|row rows]|e].
  - right. reflexivity.
  - left. vm_compute. reflexivity.
  - right. reflexivity.
Qed.

Lemma find_Some_eqb (rows : list Store.assessment) (assessment_id : string)
    (a : Store.assessment) :
  List.find (fun a => String.eqb (Store.id a) assessment_id) rows = Some a ->
  String.eqb (Store.id a) assessment_id = true.
Proof. intros H. exact (proj2 (List.find_some _ _ H)). Qed.

(** X19: the route that reads an assessment takes its fields from the
    wrong columns. After an existing assessment is completed, the field
    [overall_score] of the answer holds the completion time and the field
    [eligibility] holds the score, 76.4 or 75.0; the tier is not returned. *)
Theorem complete_then_get (db : Store.t) (now assessment_id : string) :
  Store.available db = true ->
  known db assessment_id = true ->
  exists db' result body,
    Api.complete_assessment db now assessment_id = (db', Api.Success result) /\
    Api.get_assessment db' assessment_id = Api.Success body /\
    body !! "status" = Some (Store.CVal (PStr "completed")) /\
    body !! "overall_score" = Some (Store.CVal (PStr now)) /\
    body !! "eligibility" = Some (Store.CVal (overall_score result)) /\
    (overall_score result = PFloat 76.4 \/ overall_score result = PFloat 75.0).
Proof.
  intros Havailable Hknown.
  destruct (known_find _ _ Hknown) as (a & Hfind).
  pose proof (find_Some_eqb _ _ _ Hfind) as Heqb.
  unfold Api.complete_assessment, Store.save_assessment_result,
    Store.update_assessment_status.
  rewrite Havailable. cbn [negb].
  unfold Store.available in *. cbn [Store.data]. rewrite Havailable. cbn [negb].
  set (result := generate_final_report (Store.data db) assessment_id).
  eexists _, result, _. split; [reflexivity |].
  unfold Api.get_assessment, Store.select_assessment, Store.available.
  cbn [Store.data Store.assessments]. rewrite Havailable. cbn [negb].
  assert (Hid : AIAnalysisEngine.assessment_id result = assessment_id).
  { unfold result.
    destruct (generate_final_report_cases (Store.data db) assessment_id)
      as [-> | ->]; reflexivity. }
  rewrite Hid.
  rewrite !find_update_where by reflexivity.
  rewrite Hfind. cbn [fmap option_fmap option_map].
  rewrite Heqb. cbn [Store.id Store.set_result]. rewrite Heqb.
  split; [reflexivity |].
  unfold Api.assessment_body.
  split; [|split; [|split]].
  - repeat (rewrite lookup_insert_ne by discriminate).
    rewrite lookup_insert_eq. reflexivity.
  - repeat (rewrite lookup_insert_ne by discriminate).
    rewrite lookup_insert_eq. reflexivity.
  - repeat (rewrite lookup_insert_ne by discriminate).
    rewrite lookup_insert_eq. reflexivity.
  - unfold result.
    destruct (generate_final_report_cases (Store.data db) assessment_id)
      as [-> | ->]; [left | right]; reflexivity.
Qed.

Lemma complete_then_get_ada :
  exists db' result body,
    Api.complete_assessment store_with_ada "2023-11-14 22:30:00"
      "assess_1700000000_1234" = (db', Api.Success result) /\
    Api.get_assessment db' "assess_1700000000_1234" = Api.Success body /\
    body !! "status" = Some (Store.CVal (PStr "completed")) /\
    body !! "overall_score" = Some (Store.CVal (PStr "2023-11-14 22:30:00")) /\
    body !! "eligibility" = Some (Store.CVal (overall_score result)) /\
    (overall_score result = PFloat 76.4 \/ overall_score result = PFloat 75.0).
Proof.
  apply (complete_then_get store_with_ada "2023-11-14 22:30:00"
           "assess_1700000000_1234"); reflexivity.
Defined.

(** X20: every completion adds one recommendation row, for known and
    unknown assessment ids alike, and keeps all earlier rows: completing an
    assessment twice stores its recommendation twice. *)
Theorem complete_assessment_appends (db : Store.t) (now assessment_id : string) :
  Store.available db = true ->
  exists db' result row,
    Api.complete_assessment db now assessment_id = (db', Api.Success result) /\
    Store.recommendations db' = (Store.recommendations db ++ [row])%list /\
    Store.r_id row = Store.next_id (Store.recommendations db) /\
    Store.r_assessment_id row = assessment_id /\
    title <$> recommendations result = [Store.r_title row] /\
    eligibility result = "needs-improvement".
Proof.
  intros Havailable.
  unfold Api.complete_assessment, Store.save_assessment_result,
    Store.update_assessment_status.
  rewrite Havailable. cbn [negb].
  unfold Store.available in *. cbn [Store.data]. rewrite Havailable. cbn [negb].
  destruct (generate_final_report_cases (Store.data db) assessment_id)
    as [-> | ->];
    (eexists _, _, _; split; [reflexivity |];
     cbn; split; [reflexivity |]; repeat split).
Qed.

Lemma complete_assessment_appends_fresh :
  exists db' result row,
    Api.complete_assessment fresh_store "2023-11-14 22:30:00" "S1" =
      (db', Api.Success result) /\
    Store.recommendations db' = (Store.recommendations fresh_store ++ [row])%list /\
    Store.r_id row = Store.next_id (Store.recommendations fresh_store) /\
    Store.r_assessment_id row = "S1" /\
    title <$> recommendations result = [Store.r_title row] /\
    eligibility result = "needs-improvement".
Proof.
  apply (complete_assessment_appends fresh_store "2023-11-14 22:30:00" "S1").
  reflexivity.
Defined.

(** ** The data route *)

(** X21: the data point is committed before the update is sent, so a
    failing delivery loses the answer but not the data. With the database
    open the row is stored in every case, and the route answers 500 exactly
    when a socket is registered for the session and that socket is gone. *)
Theorem save_assessment_data_commits (alive : WebSocket -> bool) (db : Store.t)
    (manager : ConnectionManager.t) (assessment_id message : string)
    (data : DatabaseManager.AssessmentData) (analysis : gmap string pyobj) :
  Store.available db = true ->
  exists db' answer trace,
    Api.save_assessment_data alive db manager assessment_id data analysis
      message = (db', answer, trace) /\
    DatabaseManager.save_assessment_data (Store.data db) data =
      Ok (Store.data db') /\
    (answer = Api.Success analysis \/
     answer = Api.HTTPException 500 "Failed to save assessment data") /\
    (answer = Api.HTTPException 500 "Failed to save assessment data" <->
     exists websocket,
       assessment_connections manager !! assessment_id = Some websocket /\
       alive websocket = false).
Proof.
  intros Havailable.
  unfold Api.save_assessment_data, DatabaseManager.save_assessment_data,
    send_to_assessment, send_text.
  unfold Store.available in Havailable. rewrite Havailable.
  destruct (assessment_connections manager !! assessment_id)
    as [websocket|] eqn:Hregistered.
  - destruct (alive websocket) eqn:Halive; cbn.
    + eexists _, _, _. split; [reflexivity |]. split; [reflexivity |].
      split; [left; reflexivity |].
      split; [discriminate |].
      intros (ws & [= <-] & Hgone). congruence.
    + eexists _, _, _. split; [reflexivity |]. split; [reflexivity |].
      split; [right; reflexivity |].
      split; [|reflexivity].
      intros _. exists websocket. auto.
  - eexists _, _, _. split; [reflexivity |]. split; [reflexivity |].
    split; [left; reflexivity |].
    split; [discriminate |].
    intros (ws & Hws & _). discriminate Hws.
Qed.

Lemma save_assessment_data_commits_gone :
  exists db' answer trace,
    Api.save_assessment_data nobody_home fresh_store
      (serve all_open two_observers) "S1" sample_data ∅ "update" =
      (db', answer, trace) /\
    DatabaseManager.save_assessment_data (Store.data fresh_store) sample_data =
      Ok (Store.data db') /\
    (answer = Api.Success ∅ \/
     answer = Api.HTTPException 500 "Failed to save assessment data") /\
    (answer = Api.HTTPException 500 "Failed to save assessment data" <->
     exists websocket,
       assessment_connections (serve all_open two_observers) !! "S1" =
         Some websocket /\
       nobody_home websocket = false).
Proof.
  apply (save_assessment_data_commits nobody_home fresh_store
           (serve all_open two_observers) "S1" "update" sample_data ∅).
  reflexivity.
Defined.

(** ** The database file cannot be opened *)

(** X22: when the database file cannot be opened no route changes
    anything and each answers 500; the completion route fails although the
    report itself falls back silently. *)
Theorem routes_unavailable (alive : WebSocket -> bool) (db : Store.t)
    (manager : ConnectionManager.t) (now_seconds name_hash : Z)
    (now assessment_id message : string) (request : Store.AssessmentRequest)
    (data : DatabaseManager.AssessmentData) (analysis : gmap string pyobj) :
  Store.available db = false ->
  Api.create_assessment db now_seconds name_hash now request =
    (db, Api.HTTPException 500 "Failed to create assessment") /\
  Api.start_assessment db now assessment_id =
    (db, Api.HTTPException 500 "Failed to start assessment") /\
  Api.save_assessment_data alive db manager assessment_id data analysis message =
    (db, Api.HTTPException 500 "Failed to save assessment data", []) /\
  generate_final_report (Store.data db) assessment_id =
    _get_fallback_result assessment_id /\
  Api.complete_assessment db now assessment_id =
    (db, Api.HTTPException 500 "Failed to complete assessment") /\
  Api.get_assessment db assessment_id =
    Api.HTTPException 500 "Failed to get assessment".
Proof.
  intros Hdown.
  unfold Api.create_assessment, Store.create_assessment, Api.start_assessment,
    Store.update_assessment_status, Api.save_assessment_data,
    DatabaseManager.save_assessment_data, Api.complete_assessment,
    Store.save_assessment_result, Api.get_assessment, Store.select_assessment,
    generate_final_report, generate_final_report_try,
    DatabaseManager.select_assessment_data.
  rewrite Hdown. unfold Store.available in Hdown. rewrite Hdown.
  repeat split.
Qed.

Lemma routes_unavailable_broken :
  Api.create_assessment broken_store 1700000000 1234 "2023-11-14 22:13:20" ada =
    (broken_store, Api.HTTPException 500 "Failed to create assessment") /\
  Api.start_assessment broken_store "2023-11-14 22:13:20" "S1" =
    (broken_store, Api.HTTPException 500 "Failed to start assessment") /\
  Api.save_assessment_data all_open broken_store init "S1" sample_data ∅
    "update" =
    (broken_store, Api.HTTPException 500 "Failed to save assessment data", []) /\
  generate_final_report (Store.data broken_store) "S1" =
    _get_fallback_result "S1" /\
  Api.complete_assessment broken_store "2023-11-14 22:13:20" "S1" =
    (broken_store, Api.HTTPException 500 "Failed to complete assessment") /\
  Api.get_assessment broken_store "S1" =
    Api.HTTPException 500 "Failed to get assessment".
Proof.
  apply (routes_unavailable all_open broken_store init 1700000000 1234
           "2023-11-14 22:13:20" "S1" "update" ada sample_data ∅).
  reflexivity.
Defined.

(** ** The live analysis *)

Lemma py_min_100 (v : pyval) (x : xreal) :
  num_value v = Some x ->
  py_min (PInt 100) v = Ok v \/ py_min (PInt 100) v = Ok (PInt 100).
Proof.
  intros Hv. unfold py_min. rewrite (py_lt_number _ _ _ Hv). cbn.
  destruct (xcompare x (XFin (inject_Z 100))) as [[]|]; auto.
Qed.

Lemma py_round1_number (v : pyval) (x : xreal) :
  num_value v = Some x ->
  exists w y, py_round1 v = Ok w /\ num_value w = Some y.
Proof.
  destruct v as [z|f|s]; cbn; intros H; [| |discriminate H]; eauto.
Qed.

(** The derived metrics of two float readings: they are returned, and
    [student_engagement] is 65. *)
Lemma calculate_teaching_metrics_floats (voice_metrics facial_metrics : dict)
    (confidence clarity : float) :
  voice_metrics !! "confidence" = Some (PFloat confidence) ->
  voice_metrics !! "clarity" = Some (PFloat clarity) ->
  facial_metrics !! "engagement" = None ->
  exists interaction_level example_usage,
    _calculate_teaching_metrics voice_metrics facial_metrics =
    Ok (teaching interaction_level example_usage (PInt 65)).
Proof.
  intros Hconfidence Hclarity Hengagement.
  unfold _calculate_teaching_metrics.
  rewrite (get_Some _ _ _ _ Hconfidence), (get_Some _ _ _ _ Hclarity),
    !(get_None _ _ _ Hengagement).
  change (py_add (PFloat confidence) (PInt 50))
    with (Ok (PFloat (confidence + 50.0)%f64)).
  rewrite bind_Ok.
  change (py_truediv (PFloat (confidence + 50.0)%f64) (PInt 2))
    with (Ok (PFloat (fdiv (confidence + 50.0)%f64 2.0%f64))).
  rewrite bind_Ok.
  change (py_add (PFloat clarity) (PInt 20))
    with (Ok (PFloat (clarity + 20.0)%f64)).
  change (py_add (PInt 50) (PInt 15)) with (Ok (PInt 65)).
  change (py_min (PInt 100) (PInt 65)) with (Ok (PInt 65)).
  destruct (py_min_100 (PFloat (fdiv (confidence + 50.0)%f64 2.0%f64)) _ eq_refl)
    as [-> | ->];
    rewrite ?bind_Ok;
    (destruct (py_min_100 (PFloat (clarity + 20.0)%f64) _ eq_refl)
       as [-> | ->];
     rewrite ?bind_Ok; cbn [py_round1]; rewrite ?bind_Ok; eauto).
Qed.

Section Draws.

Variable G : Type.
Variable np_random : G -> result float * G.

(** A reading is the draw scaled, shifted and rounded to one decimal. *)
Lemma simulated_reading (base span : Z) (fb fs : float) (g : G) (u : float)
    (g' : G) :
  to_float base = Ok fb -> to_float span = Ok fs ->
  np_random g = (Ok u, g') ->
  Analyzers.simulated G np_random base span g =
  (Ok (PFloat (fround1 (fb + u * fs)%f64)), g').
Proof.
  intros Hb Hs Hdraw.
  unfold Analyzers.simulated, Analyzers.gen_bind, Analyzers.gen_ret.
  rewrite Hdraw. unfold py_mul, py_add. rewrite Hs, Hb. reflexivity.
Qed.

Lemma simulated_raises (base span : Z) (g g' : G) (e : exn) :
  np_random g = (Raise e, g') ->
  Analyzers.simulated G np_random base span g = (Raise e, g').
Proof.
  intros Hdraw. unfold Analyzers.simulated, Analyzers.gen_bind.
  rewrite Hdraw. reflexivity.
Qed.

End Draws.

(** X23: while the generator delivers its draws, the live analysis never
    takes its fallback, whether or not the analysis libraries were imported.
    It draws four numbers for the voice reading, then an emotion and two
    numbers for the facial reading, and returns them scaled: confidence
    [round(70 + u1 * 25, 1)], volume [round(65 + u2 * 30, 1)], clarity
    [round(75 + u3 * 20, 1)], audibility [round(80 + u4 * 15, 1)], the
    emotion drawn, engagement level [round(70 + u5 * 25, 1)] and expression
    variety [round(65 + u6 * 30, 1)], with the time of the call. The
    teaching metrics owe nothing to the facial reading: they are those of
    the voice reading alone, with [student_engagement] at 65. *)
Theorem analyze_realtime_data_simulated (G : Type)
    (np_random : G -> result float * G)
    (np_choice : list string -> G -> result string * G)
    (AI_AVAILABLE : bool) (now : string) (data : gmap string dict)
    (g0 g1 g2 g3 g4 g5 g6 g7 : G) (u1 u2 u3 u4 u5 u6 : float)
    (emotion : string) :
  np_random g0 = (Ok u1, g1) ->
  np_random g1 = (Ok u2, g2) ->
  np_random g2 = (Ok u3, g3) ->
  np_random g3 = (Ok u4, g4) ->
  np_choice ["neutral"; "happy"; "confident"; "engaged"; "serious"] g4 =
    (Ok emotion, g5) ->
  np_random g5 = (Ok u5, g6) ->
  np_random g6 = (Ok u6, g7) ->
  let voice_metrics : dict :=
    <["confidence" := PFloat (fround1 (70.0 + u1 * 25.0)%f64)]>
    (<["volume" := PFloat (fround1 (65.0 + u2 * 30.0)%f64)]>
    (<["clarity" := PFloat (fround1 (75.0 + u3 * 20.0)%f64)]>
    (<["audibility" := PFloat (fround1 (80.0 + u4 * 15.0)%f64)]> ∅))) in
  let facial_metrics : dict :=
    <["emotion" := PStr emotion]>
    (<["engagement_level" := PFloat (fround1 (70.0 + u5 * 25.0)%f64)]>
    (<["expression_variety" := PFloat (fround1 (65.0 + u6 * 30.0)%f64)]> ∅)) in
  exists teaching_metrics,
    Analyzers.analyze_realtime_data G np_random np_choice AI_AVAILABLE now
      data g0 =
    (<["voice_metrics" := ODict voice_metrics]>
     (<["facial_metrics" := ODict facial_metrics]>
     (<["teaching_metrics" := ODict teaching_metrics]>
     (<["timestamp" := OVal (PStr now)]> ∅))), g7) /\
    _calculate_teaching_metrics voice_metrics ∅ = Ok teaching_metrics /\
    teaching_metrics !! "student_engagement" = Some (PInt 65).
Proof.
  intros H1 H2 H3 H4 He H5 H6 voice facial.
  assert (Hvoice : Analyzers._simulate_voice_analysis G np_random g0 =
                   (Ok voice, g4)).
  { unfold Analyzers._simulate_voice_analysis, Analyzers.gen_bind,
      Analyzers.gen_ret.
    rewrite (simulated_reading G np_random 70 25 _ _ g0 u1 g1 eq_refl eq_refl H1),
      (simulated_reading G np_random 65 30 _ _ g1 u2 g2 eq_refl eq_refl H2),
      (simulated_reading G np_random 75 20 _ _ g2 u3 g3 eq_refl eq_refl H3),
      (simulated_reading G np_random 80 15 _ _ g3 u4 g4 eq_refl eq_refl H4).
    reflexivity. }
  assert (Hfacial : Analyzers._simulate_facial_analysis G np_random np_choice g4 =
                    (Ok facial, g7)).
  { unfold Analyzers._simulate_facial_analysis, Analyzers.gen_bind,
      Analyzers.gen_ret, Analyzers.emotions.
    rewrite He,
      (simulated_reading G np_random 70 25 _ _ g5 u5 g6 eq_refl eq_refl H5),
      (simulated_reading G np_random 65 30 _ _ g6 u6 g7 eq_refl eq_refl H6).
    reflexivity. }
  assert (Hv : Analyzers.voice_analyze G np_random AI_AVAILABLE
                 (get data "audio_data" ∅) g0 = (Ok voice, g4)).
  { unfold Analyzers.voice_analyze, Analyzers.retried.
    destruct AI_AVAILABLE; cbn [negb]; rewrite Hvoice; reflexivity. }
  assert (Hf : Analyzers.facial_analyze G np_random np_choice AI_AVAILABLE
                 (get data "video_frame" ∅) g4 = (Ok facial, g7)).
  { unfold Analyzers.facial_analyze, Analyzers.retried.
    destruct AI_AVAILABLE; cbn [negb]; rewrite Hfacial; reflexivity. }
  assert (Hconfidence :
            voice !! "confidence" =
            Some (PFloat (fround1 (70.0 + u1 * 25.0)%f64))) by reflexivity.
  assert (Hclarity :
            voice !! "clarity" =
            Some (PFloat (fround1 (75.0 + u3 * 20.0)%f64))) by reflexivity.
  assert (Hengagement : facial !! "engagement" = None) by reflexivity.
  destruct (calculate_teaching_metrics_floats voice facial _ _
              Hconfidence Hclarity Hengagement) as (i & u & Hteaching).
  assert (Hsame : _calculate_teaching_metrics voice facial =
                  _calculate_teaching_metrics voice ∅).
  { unfold _calculate_teaching_metrics.
    rewrite !(get_None facial _ _ Hengagement).
    rewrite !(get_None (∅ : dict) "engagement" _ (lookup_empty _)).
    reflexivity. }
  exists (teaching i u (PInt 65)).
  split; [|split].
  - unfold Analyzers.analyze_realtime_data, Analyzers.analyze_realtime_data_try,
      Analyzers.gen_bind, Analyzers.gen_ret.
    rewrite Hv, Hf, Hteaching. reflexivity.
  - rewrite <- Hsame. exact Hteaching.
  - reflexivity.
Qed.

Lemma analyze_realtime_data_simulated_steady :
  exists teaching_metrics,
    Analyzers.analyze_realtime_data nat steady_random steady_choice true
      "2024-01-01T00:00:00" ∅ 0%nat =
    (<["voice_metrics" := ODict
         (<["confidence" := PFloat 82.5]>
          (<["volume" := PFloat 80.0]>
          (<["clarity" := PFloat 85.0]>
          (<["audibility" := PFloat 87.5]> ∅))))]>
     (<["facial_metrics" := ODict
          (<["emotion" := PStr "neutral"]>
           (<["engagement_level" := PFloat 82.5]>
           (<["expression_variety" := PFloat 80.0]> ∅)))]>
     (<["teaching_metrics" := ODict teaching_metrics]>
     (<["timestamp" := OVal (PStr "2024-01-01T00:00:00")]> ∅))), 7%nat) /\
    _calculate_teaching_metrics
      (<["confidence" := PFloat 82.5]>
       (<["volume" := PFloat 80.0]>
       (<["clarity" := PFloat 85.0]>
       (<["audibility" := PFloat 87.5]> ∅)))) ∅ = Ok teaching_metrics /\
    teaching_metrics !! "student_engagement" = Some (PInt 65).
Proof.
  exact (analyze_realtime_data_simulated nat steady_random steady_choice true
           "2024-01-01T00:00:00" ∅ 0%nat 1%nat 2%nat 3%nat 4%nat 5%nat 6%nat
           7%nat 0.5%f64 0.5%f64 0.5%f64 0.5%f64 0.5%f64 0.5%f64 "neutral"
           eq_refl eq_refl eq_refl eq_refl eq_refl eq_refl eq_refl).
Defined.

(** X24: when every draw raises, as it does when numpy could not be
    imported, the live analysis swallows the exception and returns the fixed
    fallback metrics, with the generator untouched. *)
Theorem analyze_realtime_data_fallback (G : Type)
    (np_random : G -> result float * G)
    (np_choice : list string -> G -> result string * G)
    (AI_AVAILABLE : bool) (now : string) (data : gmap string dict) (g : G) :
  (forall g, exists e, np_random g = (Raise e, g)) ->
  Analyzers.analyze_realtime_data G np_random np_choice AI_AVAILABLE now data g =
  (_get_fallback_metrics now, g).
Proof.
  intros Hraises.
  assert (Hsim : exists e,
            Analyzers._simulate_voice_analysis G np_random g = (Raise e, g)).
  { destruct (Hraises g) as (e & He). exists e.
    unfold Analyzers._simulate_voice_analysis, Analyzers.gen_bind.
    rewrite (simulated_raises G np_random 70 25 g g e He). reflexivity. }
  destruct Hsim as (e & Hsim).
  assert (Hv : Analyzers.voice_analyze G np_random AI_AVAILABLE
                 (get data "audio_data" ∅) g = (Raise e, g)).
  { unfold Analyzers.voice_analyze, Analyzers.retried.
    destruct AI_AVAILABLE; cbn [negb]; rewrite !Hsim; reflexivity. }
  unfold Analyzers.analyze_realtime_data, Analyzers.analyze_realtime_data_try,
    Analyzers.gen_bind.
  rewrite Hv. reflexivity.
Qed.

Lemma analyze_realtime_data_fallback_failing :
  Analyzers.analyze_realtime_data nat failing_random steady_choice false
    "2024-01-01T00:00:00" ∅ 0%nat =
  (_get_fallback_metrics "2024-01-01T00:00:00", 0%nat).
Proof.
  apply (analyze_realtime_data_fallback nat failing_random steady_choice false
           "2024-01-01T00:00:00" ∅ 0%nat).
  intros g. eexists. reflexivity.
Defined.

Lemma calculate_teaching_metrics_string_worded :
  _calculate_teaching_metrics worded_voice sample_facial = Raise TypeError /\
  exists e, _calculate_teaching_metrics worded_voice sample_facial = Raise e.
Proof.
  split.
  - apply (proj1 (calculate_teaching_metrics_string worded_voice sample_facial
                    "high")).
    reflexivity.
  - apply (proj2 (calculate_teaching_metrics_string worded_voice sample_facial
                    "good")).
    reflexivity.
Defined.

Lemma sentiment_positive_praise : verdict praise "positive" 1.0.
Proof.
  apply (sentiment_positive praise "good").
  - cbn. tauto.
  - vm_compute. reflexivity.
  - intros bad Hin. cbn in Hin.
    repeat (destruct Hin as [<- | Hin]; [vm_compute; reflexivity |]).
    contradiction.
Defined.
